(** * logx: the leveled logging facade of go-zero

    A shallow embedding of the package-level facade of [core/logx]
    (leveled write entry points, [Field], [SetUp], [Disable], [Reset],
    [SetWriter], ...) together with the properties its specification
    states about it.

    The package keeps its state in package-level variables; here they are
    the fields of one [State] record which every function receives and
    returns.  What the backends receive is recorded in the state as a
    trace of method invocations, so that "a record reaches backend [w]"
    is a statement about that trace. *)

From Stdlib Require Import List String Ascii Bool Arith NArith ZArith Lia.
Import ListNotations.

Local Open Scope list_scope.
Local Open Scope string_scope.

(* ================================================================= *)
(** ** Strings and small helpers *)

Definition newline : string := String (ascii_of_nat 10) EmptyString.

(** [len(s) == 0] *)
Definition is_empty (s : string) : bool :=
  match s with
  | EmptyString => true
  | String _ _ => false
  end.

(** The decimal digit [byte(d) + '0'], for [d < 10]. *)
Definition digit (d : N) : ascii := ascii_of_N (48 + d).

(* ================================================================= *)
(** ** Go standard library: [time.Duration.String]

    [Field] renders durations with [fmt.Sprint], which for a
    [time.Duration] prints the result of its [String] method.  The
    functions below follow [time/format.go]; the 32-byte buffer that the
    original fills from its end is the string accumulated in [buf], every
    [w--; buf[w] = c] being a [String c buf]. *)

Definition Nanosecond : N := 1.
Definition Microsecond : N := 1000 * Nanosecond.
Definition Millisecond : N := 1000 * Microsecond.
Definition Second : N := 1000 * Millisecond.

Definition two64 : Z := 2 ^ 64.

(** [fmtFrac]: the fraction of [v/10^prec] in front of [buf], without
    trailing zeros; returns the new buffer and [v/10^prec]. *)
Fixpoint fmtFrac_loop (prec : nat) (v : N) (print : bool) (buf : string)
  : string * N * bool :=
  match prec with
  | O => (buf, v, print)
  | S prec' =>
      let d := (v mod 10)%N in
      let print := print || negb (d =? 0)%N in
      let buf := if print then String (digit d) buf else buf in
      fmtFrac_loop prec' (v / 10)%N print buf
  end.

Definition fmtFrac (buf : string) (v : N) (prec : nat) : string * N :=
  let '(buf, v, print) := fmtFrac_loop prec v false buf in
  ((if print then String "." buf else buf), v).

(** [fmtInt]: [v] in decimal in front of [buf].  The loop [for v > 0]
    runs once per decimal digit; [fuel] bounds it. *)
Fixpoint fmtInt_loop (fuel : nat) (v : N) (buf : string) : string :=
  match fuel with
  | O => buf
  | S fuel' =>
      if (0 <? v)%N
      then fmtInt_loop fuel' (v / 10)%N (String (digit (v mod 10)%N) buf)
      else buf
  end.

Definition fmtInt (buf : string) (v : N) : string :=
  if (v =? 0)%N then String "0" buf
  else fmtInt_loop (S (N.to_nat (N.log2 v))) v buf.

(** The two bytes of U+00B5, the micro sign. *)
Definition micro : string :=
  String (ascii_of_nat 194) (String (ascii_of_nat 181) EmptyString).

(** A [time.Duration] is an [int64] count of nanoseconds.  [format]
    works on [u := uint64(d)], negated (modulo 2^64) when [d < 0]. *)
Definition Duration_format (d : Z) : string :=
  let neg := (d <? 0)%Z in
  let u := Z.to_N ((if neg then - d else d) mod two64)%Z in
  let body :=
    if (u <? Second)%N then
      if (u =? 0)%N then "0s"
      else if (u <? Microsecond)%N then
        let '(buf, u) := fmtFrac "ns" u 0 in fmtInt buf u
      else if (u <? Millisecond)%N then
        let '(buf, u) := fmtFrac (micro ++ "s") u 3 in fmtInt buf u
      else
        let '(buf, u) := fmtFrac "ms" u 6 in fmtInt buf u
    else
      let '(buf, u) := fmtFrac "s" u 9 in
      let buf := fmtInt buf (u mod 60)%N in
      let u := (u / 60)%N in
      if (0 <? u)%N then
        let buf := fmtInt (String "m" buf) (u mod 60)%N in
        let u := (u / 60)%N in
        if (0 <? u)%N then fmtInt (String "h" buf) u else buf
      else buf
  in
  if neg then String "-" body else body.

Definition Duration_String (d : Z) : string := Duration_format d.

(* ================================================================= *)
(** ** Go standard library: [path.Join]

    [Join] glues its elements with slashes, ignoring empty ones in front,
    and cleans the result.  [Clean] is written here over the list of
    slash-separated components instead of the original's byte cursor:
    empty and [.] components are dropped, [..] removes the component
    before it (or is kept, in a relative path, when there is none to
    remove), and an empty result becomes [.]. *)

Definition slash : ascii := "/"%char.

(** Components of [s] between slashes; [acc] is the current component,
    reversed. *)
Fixpoint rev_string (s acc : string) : string :=
  match s with
  | EmptyString => acc
  | String c s' => rev_string s' (String c acc)
  end.

Fixpoint split_slash (s acc : string) : list string :=
  match s with
  | EmptyString => [rev_string acc EmptyString]
  | String c s' =>
      if Ascii.eqb c slash
      then rev_string acc EmptyString :: split_slash s' EmptyString
      else split_slash s' (String c acc)
  end.

(** One step of [Clean]'s loop on a component; [out] holds the kept
    components, innermost first. *)
Definition clean_step (rooted : bool) (out : list string) (comp : string)
  : list string :=
  if is_empty comp then out
  else if String.eqb comp "." then out
  else if String.eqb comp ".." then
    match out with
    | prev :: out' =>
        if String.eqb prev ".." then comp :: out else out'
    | [] => if rooted then out else [comp]
    end
  else comp :: out.

Fixpoint join_slash (l : list string) : string :=
  match l with
  | [] => EmptyString
  | [x] => x
  | x :: l' => x ++ String slash (join_slash l')
  end.

Definition path_Clean (p : string) : string :=
  match p with
  | EmptyString => "."
  | String c _ =>
      let rooted := Ascii.eqb c slash in
      let out := fold_left (clean_step rooted) (split_slash p EmptyString) [] in
      let s := (if rooted then String slash EmptyString else EmptyString)
                 ++ join_slash (rev out) in
      if is_empty s then "." else s
  end.

Fixpoint join_elems (buf : string) (elem : list string) : string :=
  match elem with
  | [] => buf
  | e :: elem' =>
      if negb (is_empty buf) || negb (is_empty e)
      then join_elems ((if negb (is_empty buf) then buf ++ String slash EmptyString
                        else buf) ++ e) elem'
      else join_elems buf elem'
  end.

Definition path_Join (elem : list string) : string :=
  if forallb is_empty elem then EmptyString
  else path_Clean (join_elems EmptyString elem).

(* ================================================================= *)
(** ** Values, fields and the call stack *)

(** An [error] interface value other than nil, by the message its
    [Error] method returns. *)
Record error := mkError { err_Error : string }.

(** A [fmt.Stringer] interface value other than nil, by the text its
    [String] method returns. *)
Record Stringer := mkStringer { str_String : string }.

(** A [time.Time]: an instant, in nanoseconds since the epoch. *)
Record Time := mkTime { unixNano : Z }.

(** A value of a type that [Field] has no case of its own for: what it
    is (opaque to the facade), and the results of its [Error] and
    [String] methods when its type has them. *)
Record Dyn := mkDyn {
  dyn_repr : string;
  dyn_Error : option string;
  dyn_String : option string
}.

(** An [interface{}] as the facade meets it.  The slices are the
    unnamed slice types [Field] switches on; their elements are
    interface values other than nil (on a nil element the source
    panics when it calls the element's method). *)
Inductive value :=
| VNil
| VString (s : string)
| VStrings (l : list string)
| VErrors (l : list error)
| VDuration (d : Z)
| VDurations (l : list Z)
| VTimes (l : list Time)
| VStringers (l : list Stringer)
| VOther (o : Dyn).

(** [LogField] is a key-value pair that will be added to the log entry. *)
Record LogField := mkLogField { Key : string; Value : value }.

(** A source position, [file:line]. *)
Record Loc := mkLoc { loc_file : string; loc_line : N }.

(** The call stack of the running goroutine as the list of its call
    sites, innermost first: the head is the position of the call that
    entered the current function. *)
Definition Stack := list Loc.

Record logOptions := mkLogOptions {
  gzipEnabled : bool;
  logStackCooldownMills : Z;
  keepDays : Z;
  maxBackups : Z;
  maxSize : Z;
  rotationRule : string
}.


(** The fields of [LogConf] that this file reads. *)
Record LogConf := mkLogConf {
  ServiceName : string;
  Mode : string;
  Encoding : string;
  TimeFormat : string;
  Path : string;
  Level : string
}.

(* ================================================================= *)
(** ** Backends *)

(** The rotation rule handed to [NewLogger], as built by
    [NewSizeLimitRotateRule] and [DefaultRotateRule]. *)
Inductive RotateRule :=
| SizeLimitRotateRule (filename delimiter : string) (days maxSize maxBackups : Z)
    (gzip : bool)
| DefaultRotateRule (filename delimiter : string) (days : Z) (gzip : bool).

(** A rotating output file opened by [NewLogger]. *)
Record Output := mkOutput {
  out_path : string;
  out_rule : RotateRule;
  out_gzip : bool
}.

(** The implementations of the [Writer] interface: the console writer,
    the rotating file writer over the files of a directory, the no-op
    writer of [Disable], and writers supplied through [SetWriter]. *)
Inductive Writer :=
| consoleWriter
| fileWriter (dir : string) (outs : list Output)
| nopWriter
| customWriter (id : nat).

(** The severity methods of the [Writer] interface. *)
Inductive Method :=
| MAlert | MDebug | MError | MInfo | MSevere | MSlow | MStack | MStat.

(** One method invocation received by a backend: a record. *)
Record Call := mkCall {
  target : Writer;
  method : Method;
  val : value;
  fields : list LogField
}.

(** Modelled from the spec: the writers' method bodies are not among the
    sources.  Of the no-op backend "every method is a discard"; the
    other backends write each record they receive. *)
Definition emits (w : Writer) : bool :=
  match w with
  | nopWriter => false
  | _ => true
  end.

(* ================================================================= *)
(** ** Package state *)

Record State := mkState {
  timeFormat : string;
  logLevel : N;                 (* uint32, read and written atomically *)
  encoding : N;
  disableLog : N;
  disableStat : N;
  options : logOptions;
  writer : option Writer;       (* the atomicWriter; None is nil *)
  setupOnce : bool;             (* sync.Once: has Do run *)
  calls : list Call;            (* what the backends have received *)
  opened : list Output;         (* files opened by NewLogger *)
  closed : list Writer          (* writers whose Close was called *)
}.

Definition set_timeFormat (x : string) (st : State) : State :=
  mkState x (logLevel st) (encoding st) (disableLog st) (disableStat st)
    (options st) (writer st) (setupOnce st) (calls st) (opened st) (closed st).
Definition set_logLevel (x : N) (st : State) : State :=
  mkState (timeFormat st) x (encoding st) (disableLog st) (disableStat st)
    (options st) (writer st) (setupOnce st) (calls st) (opened st) (closed st).
Definition set_encoding (x : N) (st : State) : State :=
  mkState (timeFormat st) (logLevel st) x (disableLog st) (disableStat st)
    (options st) (writer st) (setupOnce st) (calls st) (opened st) (closed st).
Definition set_disableLog (x : N) (st : State) : State :=
  mkState (timeFormat st) (logLevel st) (encoding st) x (disableStat st)
    (options st) (writer st) (setupOnce st) (calls st) (opened st) (closed st).
Definition set_disableStat (x : N) (st : State) : State :=
  mkState (timeFormat st) (logLevel st) (encoding st) (disableLog st) x
    (options st) (writer st) (setupOnce st) (calls st) (opened st) (closed st).
Definition set_writer (x : option Writer) (st : State) : State :=
  mkState (timeFormat st) (logLevel st) (encoding st) (disableLog st)
    (disableStat st) (options st) x (setupOnce st) (calls st) (opened st)
    (closed st).
Definition set_setupOnce (x : bool) (st : State) : State :=
  mkState (timeFormat st) (logLevel st) (encoding st) (disableLog st)
    (disableStat st) (options st) (writer st) x (calls st) (opened st)
    (closed st).
Definition set_calls (x : list Call) (st : State) : State :=
  mkState (timeFormat st) (logLevel st) (encoding st) (disableLog st)
    (disableStat st) (options st) (writer st) (setupOnce st) x (opened st)
    (closed st).
Definition set_opened (x : list Output) (st : State) : State :=
  mkState (timeFormat st) (logLevel st) (encoding st) (disableLog st)
    (disableStat st) (options st) (writer st) (setupOnce st) (calls st) x
    (closed st).
Definition set_closed (x : list Writer) (st : State) : State :=
  mkState (timeFormat st) (logLevel st) (encoding st) (disableLog st)
    (disableStat st) (options st) (writer st) (setupOnce st) (calls st)
    (opened st) x.

(** What has been written out: the records received by backends that
    write. *)
Definition output (st : State) : list Call :=
  filter (fun c => emits (target c)) (calls st).

(** Invoking severity method [m] of writer [w]. *)
Definition invoke (w : Writer) (m : Method) (v : value) (fs : list LogField)
  (st : State) : State :=
  set_calls (calls st ++ [mkCall w m v fs])%list st.

(* ================================================================= *)
(** ** What the facade takes from outside this file

    The formatting functions of [fmt], the stack dump of
    [runtime/debug], the rendering of a [time.Time], the host name, the
    outcome of opening a file, and the positions and constants that other
    files of the package hold. *)

Class Env := {
  fmt_Sprint : list value -> string;
  fmt_Sprintf : string -> list value -> string;
  fmt_Errorf : string -> list value -> error;
  Time_String : Time -> string;
  debug_Stack : Stack -> string;
  sysx_Hostname : string;
  (** the error, if any, of opening the file at a path *)
  open_error : string -> option error;
  (** the result of a backend's [Close] *)
  close_error : Writer -> option error;
  (** the name of this source file, and the position of the
      [runtime.Caller] call in [getCaller] *)
  logs_go : string;
  getCaller_site : Loc;
  backupFileDelimiter : string;
  (** the file of each stream of the rotating file writer *)
  stream_files : list string
}.

(* ================================================================= *)
(** ** Constants *)

Definition callerDepth : nat := 4.

(** Modelled from the spec: the level constants are declared in a file
    that is not among the sources; "thresholds ordered Debug < Info <
    Error < Severe". *)
Definition DebugLevel : N := 0.
Definition InfoLevel : N := 1.
Definition ErrorLevel : N := 2.
Definition SevereLevel : N := 3.

(** Modelled from the spec: the configuration words, "Level:
    debug|info|error|severe", "Mode: console | file | volume",
    "Encoding: plain|json", rotation rule "size", and the "caller"
    field. *)
Definition levelDebug : string := "debug".
Definition levelInfo : string := "info".
Definition levelError : string := "error".
Definition levelSevere : string := "severe".
Definition fileMode : string := "file".
Definition volumeMode : string := "volume".
Definition plainEncoding : string := "plain".
Definition sizeRotationRule : string := "size".
Definition callerKey : string := "caller".

(** Modelled from the spec: two encoding modes, JSON and plain. *)
Definition jsonEncodingType : N := 0.
Definition plainEncodingType : N := 1.

(** Modelled from the spec: the two configuration errors, "missing
    required path" and "missing service name". *)
Definition ErrLogPathNotSet : error := mkError "log path must be set".
Definition ErrLogServiceNameNotSet : error :=
  mkError "log service name must be set".

(** The package variables as the program starts. *)
Definition initial : State :=
  {| timeFormat := "2006-01-02T15:04:05.000Z07:00";
     logLevel := 0;
     encoding := jsonEncodingType;
     disableLog := 0;
     disableStat := 0;
     options := mkLogOptions false 0 0 0 0 "";
     writer := None;
     setupOnce := false;
     calls := [];
     opened := [];
     closed := [] |}.

(* ================================================================= *)
(** ** The atomic writer holder *)

(** Modelled from the spec: [atomicWriter] is not among the sources.
    "[Store(writer)] unconditionally replaces the active writer; [Load()]
    returns the current writer or a sentinel empty value;
    [StoreIfNil(writer)] installs a writer only if none is present,
    returning whichever writer ends up active; [Swap(nil)] atomically
    detaches and returns the current writer". *)
Module atomicWriter.

Definition Load (h : option Writer) : option Writer := h.

Definition Store (h : option Writer) (v : option Writer) : option Writer := v.

Definition StoreIfNil (h : option Writer) (v : Writer)
  : option Writer * Writer :=
  match h with
  | None => (Some v, v)
  | Some w => (h, w)
  end.

Definition Swap (h : option Writer) (v : option Writer)
  : option Writer * option Writer :=
  (v, h).

End atomicWriter.

(** [sync.Once.Do]: [f] runs only if no call of [Do] has run before;
    otherwise the caller gets [skipped]. *)
Definition Once_Do {A : Type} (f : State -> State * A) (skipped : A)
  (st : State) : State * A :=
  if setupOnce st then (st, skipped)
  else f (set_setupOnce true st).

(* ================================================================= *)
(** ** The facade *)

Section Facade.

Context {env : Env}.

(** A position in this file. *)
Definition here (line : N) : Loc := mkLoc logs_go line.

(** [runtime.Caller(skip)]: the position [skip] frames up, 0 being the
    position of the call of [Caller] itself. *)
Definition runtime_Caller (skip : nat) (frames : Stack) : option Loc :=
  nth_error frames skip.

Definition show_Loc (l : Loc) : string :=
  loc_file l ++ ":" ++ fmtInt EmptyString (loc_line l).

(** Modelled from the spec: [getCaller] is not among the sources; the
    caller location is "file:line, resolved by walking a fixed number of
    stack frames". *)
Definition getCaller (callDepth : nat) (stk : Stack) : string :=
  match runtime_Caller callDepth (getCaller_site :: stk) with
  | Some l => show_Loc l
  | None => EmptyString
  end.

Definition newConsoleWriter : Writer := consoleWriter.

(** The type assertions of [Field]'s switch: does the dynamic type
    implement [error], is it a [fmt.Stringer]. *)
Definition as_error (v : value) : option string :=
  match v with
  | VOther o => dyn_Error o
  | _ => None
  end.

Definition as_Stringer (v : value) : option string :=
  match v with
  | VDuration d => Some (Duration_String d)
  | VOther o => dyn_String o
  | _ => None
  end.

(** [for _, x := range val { out = append(out, f(x)) }] *)
Definition range_append {A : Type} (f : A -> string) (val : list A)
  : list string :=
  fold_left (fun out x => out ++ [f x])%list val [].

(** [Field] returns a [LogField] for the given key and value. *)
Definition Field (key : string) (value : value) : LogField :=
  match as_error value with
  | Some msg => {| Key := key; Value := VString msg |}
  | None =>
    match value with
    | VErrors val =>
        {| Key := key; Value := VStrings (range_append err_Error val) |}
    | VDuration val =>
        {| Key := key; Value := VString (Duration_String val) |}
    | VDurations val =>
        {| Key := key; Value := VStrings (range_append Duration_String val) |}
    | VTimes val =>
        {| Key := key; Value := VStrings (range_append Time_String val) |}
    | _ =>
      match as_Stringer value with
      | Some str => {| Key := key; Value := VString str |}
      | None =>
        match value with
        | VStringers val =>
            {| Key := key; Value := VStrings (range_append str_String val) |}
        | _ => {| Key := key; Value := value |}
        end
      end
    end
  end.

Definition addCaller (fields : list LogField) (stk : Stack) : list LogField :=
  (fields ++ [Field callerKey (VString (getCaller callerDepth (here 340 :: stk)))])%list.

Definition getWriter (st : State) : State * Writer :=
  match atomicWriter.Load (writer st) with
  | Some w => (st, w)
  | None =>
      let '(h, w) := atomicWriter.StoreIfNil (writer st) newConsoleWriter in
      (set_writer h st, w)
  end.

Definition shallLog (level : N) (st : State) : bool :=
  (logLevel st <=? level)%N.

Definition shallLogStat (st : State) : bool :=
  (disableStat st =? 0)%N.

Definition writeDebug (val : value) (fields : list LogField) (stk : Stack)
  (st : State) : State :=
  if shallLog DebugLevel st then
    let '(st, w) := getWriter st in
    invoke w MDebug val (addCaller fields (here 419 :: stk)) st
  else st.

Definition writeError (val : value) (fields : list LogField) (stk : Stack)
  (st : State) : State :=
  if shallLog ErrorLevel st then
    let '(st, w) := getWriter st in
    invoke w MError val (addCaller fields (here 425 :: stk)) st
  else st.

Definition writeInfo (val : value) (fields : list LogField) (stk : Stack)
  (st : State) : State :=
  if shallLog InfoLevel st then
    let '(st, w) := getWriter st in
    invoke w MInfo val (addCaller fields (here 431 :: stk)) st
  else st.

Definition writeSevere (msg : string) (stk : Stack) (st : State) : State :=
  if shallLog SevereLevel st then
    let '(st, w) := getWriter st in
    invoke w MSevere
      (VString (msg ++ newline ++ debug_Stack (here 437 :: stk))) [] st
  else st.

Definition writeSlow (val : value) (fields : list LogField) (stk : Stack)
  (st : State) : State :=
  if shallLog ErrorLevel st then
    let '(st, w) := getWriter st in
    invoke w MSlow val (addCaller fields (here 443 :: stk)) st
  else st.

Definition writeStack (msg : string) (stk : Stack) (st : State) : State :=
  if shallLog ErrorLevel st then
    let '(st, w) := getWriter st in
    invoke w MStack
      (VString (msg ++ newline ++ debug_Stack (here 449 :: stk))) [] st
  else st.

Definition writeStat (msg : string) (stk : Stack) (st : State) : State :=
  if shallLogStat st && shallLog InfoLevel st then
    let '(st, w) := getWriter st in
    invoke w MStat (VString msg) (addCaller [] (here 455 :: stk)) st
  else st.

(** [Alert] alerts [v] in alert level, and the message is written to
    error log. *)
Definition Alert (v : string) (st : State) : State :=
  let '(st, w) := getWriter st in
  invoke w MAlert (VString v) [] st.

(** [Close] closes the logging. *)
Definition Close (st : State) : State * option error :=
  let '(h, w) := atomicWriter.Swap (writer st) None in
  let st := set_writer h st in
  match w with
  | Some w => (set_closed (closed st ++ [w])%list st, close_error w)
  | None => (st, None)
  end.

Definition Debug (v : list value) (stk : Stack) : State -> State :=
  writeDebug (VString (fmt_Sprint v)) [] (here 69 :: stk).

Definition Debugf (format : string) (v : list value) (stk : Stack)
  : State -> State :=
  writeDebug (VString (fmt_Sprintf format v)) [] (here 74 :: stk).

Definition Debugv (v : value) (stk : Stack) : State -> State :=
  writeDebug v [] (here 79 :: stk).

Definition Debugw (msg : string) (fields : list LogField) (stk : Stack)
  : State -> State :=
  writeDebug (VString msg) fields (here 84 :: stk).

(** [Disable] disables the logging. *)
Definition Disable (st : State) : State :=
  let st := set_disableLog 1 st in
  set_writer (atomicWriter.Store (writer st) (Some nopWriter)) st.

(** [DisableStat] disables the stat logs. *)
Definition DisableStat (st : State) : State :=
  set_disableStat 1 st.

Definition Error (v : list value) (stk : Stack) : State -> State :=
  writeError (VString (fmt_Sprint v)) [] (here 100 :: stk).

Definition Errorf (format : string) (v : list value) (stk : Stack)
  : State -> State :=
  writeError (VString (err_Error (fmt_Errorf format v))) [] (here 105 :: stk).

Definition ErrorStack (v : list value) (stk : Stack) : State -> State :=
  writeStack (fmt_Sprint v) (here 111 :: stk).

Definition ErrorStackf (format : string) (v : list value) (stk : Stack)
  : State -> State :=
  writeStack (fmt_Sprintf format v) (here 117 :: stk).

Definition Errorv (v : value) (stk : Stack) : State -> State :=
  writeError v [] (here 123 :: stk).

Definition Errorw (msg : string) (fields : list LogField) (stk : Stack)
  : State -> State :=
  writeError (VString msg) fields (here 128 :: stk).

Definition Info (v : list value) (stk : Stack) : State -> State :=
  writeInfo (VString (fmt_Sprint v)) [] (here 171 :: stk).

Definition Infof (format : string) (v : list value) (stk : Stack)
  : State -> State :=
  writeInfo (VString (fmt_Sprintf format v)) [] (here 176 :: stk).

Definition Infov (v : value) (stk : Stack) : State -> State :=
  writeInfo v [] (here 181 :: stk).

Definition Infow (msg : string) (fields : list LogField) (stk : Stack)
  : State -> State :=
  writeInfo (VString msg) fields (here 186 :: stk).

(** [Reset] clears the writer. *)
Definition Reset (st : State) : State * option Writer :=
  let '(h, w) := atomicWriter.Swap (writer st) None in
  (set_writer h st, w).

(** [SetLevel] sets the logging level. *)
Definition SetLevel (level : N) (st : State) : State :=
  set_logLevel level st.

(** [SetWriter] sets the logging writer; [w] may be nil. *)
Definition SetWriter (w : option Writer) (st : State) : State :=
  if (disableLog st =? 0)%N
  then set_writer (atomicWriter.Store (writer st) w) st
  else st.

Definition Severe (v : list value) (stk : Stack) : State -> State :=
  writeSevere (fmt_Sprint v) (here 259 :: stk).

Definition Severef (format : string) (v : list value) (stk : Stack)
  : State -> State :=
  writeSevere (fmt_Sprintf format v) (here 264 :: stk).

Definition Slow (v : list value) (stk : Stack) : State -> State :=
  writeSlow (VString (fmt_Sprint v)) [] (here 269 :: stk).

Definition Slowf (format : string) (v : list value) (stk : Stack)
  : State -> State :=
  writeSlow (VString (fmt_Sprintf format v)) [] (here 274 :: stk).

Definition Slowv (v : value) (stk : Stack) : State -> State :=
  writeSlow v [] (here 279 :: stk).

Definition Sloww (msg : string) (fields : list LogField) (stk : Stack)
  : State -> State :=
  writeSlow (VString msg) fields (here 284 :: stk).

Definition Stat (v : list value) (stk : Stack) : State -> State :=
  writeStat (fmt_Sprint v) (here 289 :: stk).

Definition Statf (format : string) (v : list value) (stk : Stack)
  : State -> State :=
  writeStat (fmt_Sprintf format v) (here 294 :: stk).








(** Modelled from the spec: [NewLogger] is not among the sources.
    Setup "possibly opens a file"; whether that succeeds is the
    environment's [open_error]. *)
Definition NewLogger (filename : string) (rule : RotateRule) (compress : bool)
  (st : State) : State * (Output + error) :=
  match open_error filename with
  | Some err => (st, inr err)
  | None =>
      let out := mkOutput filename rule compress in
      (set_opened (opened st ++ [out])%list st, inl out)
  end.

Definition createOutput (path : string) (st : State)
  : State * (Output + error) :=
  if is_empty path then (st, inr ErrLogPathNotSet)
  else
    let o := options st in
    if String.eqb (rotationRule o) sizeRotationRule then
      NewLogger path
        (SizeLimitRotateRule path backupFileDelimiter (keepDays o) (maxSize o)
           (maxBackups o) (gzipEnabled o))
        (gzipEnabled o) st
    else
      NewLogger path
        (DefaultRotateRule path backupFileDelimiter (keepDays o) (gzipEnabled o))
        (gzipEnabled o) st.

Fixpoint createOutputs (paths : list string) (st : State)
  : State * (list Output + error) :=
  match paths with
  | [] => (st, inl [])
  | p :: paths' =>
      match createOutput p st with
      | (st, inr err) => (st, inr err)
      | (st, inl out) =>
          match createOutputs paths' st with
          | (st, inr err) => (st, inr err)
          | (st, inl outs) => (st, inl (out :: outs))
          end
      end
  end.

(** Modelled from the spec: [newFileWriter] is not among the sources.
    "A missing required path (file mode) fails the setup call with a
    descriptive error"; the rotating file backend has several "logical
    log streams, each backed by its own rotating file", opened here
    through [createOutput] under the configured path. *)
Definition newFileWriter (c : LogConf) (st : State)
  : State * (Writer + error) :=
  if is_empty (Path c) then (st, inr ErrLogPathNotSet)
  else
    match createOutputs (map (fun f => path_Join [Path c; f]) stream_files) st with
    | (st, inr err) => (st, inr err)
    | (st, inl outs) => (st, inl (fileWriter (Path c) outs))
    end.

Definition setupLogLevel (c : LogConf) (st : State) : State :=
  if String.eqb (Level c) levelDebug then SetLevel DebugLevel st
  else if String.eqb (Level c) levelInfo then SetLevel InfoLevel st
  else if String.eqb (Level c) levelError then SetLevel ErrorLevel st
  else if String.eqb (Level c) levelSevere then SetLevel SevereLevel st
  else st.

Definition setupWithConsole (st : State) : State :=
  SetWriter (Some newConsoleWriter) st.

Definition setupWithFiles (c : LogConf) (st : State) : State * option error :=
  match newFileWriter c st with
  | (st, inr err) => (st, Some err)
  | (st, inl w) => (SetWriter (Some w) st, None)
  end.

Definition with_Path (c : LogConf) (p : string) : LogConf :=
  mkLogConf (ServiceName c) (Mode c) (Encoding c) (TimeFormat c) p (Level c).

Definition setupWithVolume (c : LogConf) (st : State) : State * option error :=
  if is_empty (ServiceName c) then (st, Some ErrLogServiceNameNotSet)
  else
    let c := with_Path c (path_Join [Path c; ServiceName c; sysx_Hostname]) in
    setupWithFiles c st.

(** The function that [SetUp] hands to [setupOnce.Do]. *)
Definition setup_body (c : LogConf) (st : State) : State * option error :=
  let st := setupLogLevel c st in
  let st := if negb (is_empty (TimeFormat c))
            then set_timeFormat (TimeFormat c) st else st in
  let st := if String.eqb (Encoding c) plainEncoding
            then set_encoding plainEncodingType st
            else set_encoding jsonEncodingType st in
  if String.eqb (Mode c) fileMode then setupWithFiles c st
  else if String.eqb (Mode c) volumeMode then setupWithVolume c st
  else (setupWithConsole st, None).

(** [SetUp] sets up the logx.  If already set up, just return nil. *)
Definition SetUp (c : LogConf) (st : State) : State * option error :=
  Once_Do (setup_body c) None st.

(** [Must] checks if [err] is nil, otherwise logs the error and exits.
    Beside the state, the result holds what [log.Print] printed through
    the standard logger and, when the process is terminated by
    [os.Exit], its status. *)
Definition Must (err : option error) (st : State)
  : State * list string * option Z :=
  match err with
  | None => (st, [], None)
  | Some err =>
      let msg := err_Error err in
      let '(st, w) := getWriter st in
      (invoke w MSevere (VString msg) [] st, [msg], Some 1%Z)
  end.

(** [MustSetup] sets up logging with given config [c].  It exits on
    error. *)
Definition MustSetup (c : LogConf) (st : State)
  : State * list string * option Z :=
  let '(st, err) := SetUp c st in
  Must err st.

(* ----------------------------------------------------------------- *)
(** *** Calls and call sequences *)

(** A call of one of the write entry points. *)
Inductive Entry :=
| EAlert (v : string)
| EDebug (v : list value)
| EDebugf (format : string) (v : list value)
| EDebugv (v : value)
| EDebugw (msg : string) (fs : list LogField)
| EError (v : list value)
| EErrorf (format : string) (v : list value)
| EErrorStack (v : list value)
| EErrorStackf (format : string) (v : list value)
| EErrorv (v : value)
| EErrorw (msg : string) (fs : list LogField)
| EInfo (v : list value)
| EInfof (format : string) (v : list value)
| EInfov (v : value)
| EInfow (msg : string) (fs : list LogField)
| ESevere (v : list value)
| ESeveref (format : string) (v : list value)
| ESlow (v : list value)
| ESlowf (format : string) (v : list value)
| ESlowv (v : value)
| ESloww (msg : string) (fs : list LogField)
| EStat (v : list value)
| EStatf (format : string) (v : list value).

(** [write e stk st]: the entry point is called from a goroutine whose
    call sites, from the call of the entry point outwards, are [stk]. *)
Definition write (e : Entry) (stk : Stack) (st : State) : State :=
  match e with
  | EAlert v => Alert v st
  | EDebug v => Debug v stk st
  | EDebugf format v => Debugf format v stk st
  | EDebugv v => Debugv v stk st
  | EDebugw msg fs => Debugw msg fs stk st
  | EError v => Error v stk st
  | EErrorf format v => Errorf format v stk st
  | EErrorStack v => ErrorStack v stk st
  | EErrorStackf format v => ErrorStackf format v stk st
  | EErrorv v => Errorv v stk st
  | EErrorw msg fs => Errorw msg fs stk st
  | EInfo v => Info v stk st
  | EInfof format v => Infof format v stk st
  | EInfov v => Infov v stk st
  | EInfow msg fs => Infow msg fs stk st
  | ESevere v => Severe v stk st
  | ESeveref format v => Severef format v stk st
  | ESlow v => Slow v stk st
  | ESlowf format v => Slowf format v stk st
  | ESlowv v => Slowv v stk st
  | ESloww msg fs => Sloww msg fs stk st
  | EStat v => Stat v stk st
  | EStatf format v => Statf format v stk st
  end.

(** A call of any function of the facade. *)
Inductive Op :=
| OWrite (e : Entry) (stk : Stack)
| OSetUp (c : LogConf)
| OSetLevel (level : N)
| OSetWriter (w : option Writer)
| OReset
| OClose
| ODisable
| ODisableStat.

Definition step (st : State) (o : Op) : State :=
  match o with
  | OWrite e stk => write e stk st
  | OSetUp c => fst (SetUp c st)
  | OSetLevel level => SetLevel level st
  | OSetWriter w => SetWriter w st
  | OReset => fst (Reset st)
  | OClose => fst (Close st)
  | ODisable => Disable st
  | ODisableStat => DisableStat st
  end.

Definition run (ops : list Op) (st : State) : State :=
  fold_left step ops st.

(* ----------------------------------------------------------------- *)
(** *** Vocabulary of the properties *)

(** The backend a write reaches: the one the holder exposes, the
    console writer being materialized when there is none. *)
Definition current_backend (st : State) : Writer := snd (getWriter st).

(** The entry point forwards exactly one record, to the current
    backend. *)
Definition forwards_one (e : Entry) (stk : Stack) (st : State) : Prop :=
  exists r, calls (write e stk st) = (calls st ++ [r])%list
            /\ target r = current_backend st.

(** The entry point forwards nothing, to any backend. *)
Definition forwards_none (e : Entry) (stk : Stack) (st : State) : Prop :=
  calls (write e stk st) = calls st.

(** The severity classes of the entry points. *)
Inductive Family :=
| FAlert | FDebug | FInfo | FError | FSevere | FSlow | FStat.

Definition family (e : Entry) : Family :=
  match e with
  | EAlert _ => FAlert
  | EDebug _ | EDebugf _ _ | EDebugv _ | EDebugw _ _ => FDebug
  | EError _ | EErrorf _ _ | EErrorv _ | EErrorw _ _
  | EErrorStack _ | EErrorStackf _ _ => FError
  | EInfo _ | EInfof _ _ | EInfov _ | EInfow _ _ => FInfo
  | ESevere _ | ESeveref _ _ => FSevere
  | ESlow _ | ESlowf _ _ | ESlowv _ | ESloww _ _ => FSlow
  | EStat _ | EStatf _ _ => FStat
  end.

(** The severity of the four leveled classes. *)
Definition severity (f : Family) : option N :=
  match f with
  | FDebug => Some DebugLevel
  | FInfo => Some InfoLevel
  | FError => Some ErrorLevel
  | FSevere => Some SevereLevel
  | FAlert | FSlow | FStat => None
  end.

(** The entry points that attach the stack trace. *)
Definition with_stack (e : Entry) : bool :=
  match e with
  | ESevere _ | ESeveref _ _ | EErrorStack _ | EErrorStackf _ _ => true
  | _ => false
  end.

(** The formatted primary message of a plain or printf-style call. *)
Definition primary (e : Entry) : option string :=
  match e with
  | EAlert v => Some v
  | EDebug v | EError v | EErrorStack v | EInfo v | ESevere v | ESlow v
  | EStat v => Some (fmt_Sprint v)
  | EDebugf format v | EErrorStackf format v | EInfof format v
  | ESeveref format v | ESlowf format v | EStatf format v =>
      Some (fmt_Sprintf format v)
  | EErrorf format v => Some (err_Error (fmt_Errorf format v))
  | EDebugw msg _ | EErrorw msg _ | EInfow msg _ | ESloww msg _ => Some msg
  | EDebugv _ | EErrorv _ | EInfov _ | ESlowv _ => None
  end.

(** The fields the caller supplied. *)
Definition supplied (e : Entry) : list LogField :=
  match e with
  | EDebugw _ fs | EErrorw _ fs | EInfow _ fs | ESloww _ fs => fs
  | _ => []
  end.

(** The caller-location field for a call made at [site]. *)
Definition caller_field (site : Loc) : LogField :=
  {| Key := callerKey; Value := VString (show_Loc site) |}.

(** How many times the initialization of [SetUp] runs in a sequence of
    calls. *)
Fixpoint initializations (ops : list Op) (st : State) : nat :=
  match ops with
  | [] => 0
  | o :: ops' =>
      (match o with
       | OSetUp _ => if setupOnce st then 0 else 1
       | _ => 0
       end + initializations ops' (step st o))%nat
  end.

(** Neither [Reset] nor [Close]. *)
Definition keeps_writer (o : Op) : bool :=
  match o with
  | OReset | OClose => false
  | _ => true
  end.

(** The level gate of each entry point: the leveled classes pass when
    the threshold is at most their severity, slow logs when it is at most
    [ErrorLevel], stat logs when they are enabled and the threshold is at
    most [InfoLevel]; alerts always pass. *)
Definition passes (e : Entry) (st : State) : bool :=
  match family e with
  | FAlert => true
  | FDebug => (logLevel st <=? DebugLevel)%N
  | FInfo => (logLevel st <=? InfoLevel)%N
  | FError | FSlow => (logLevel st <=? ErrorLevel)%N
  | FSevere => (logLevel st <=? SevereLevel)%N
  | FStat => (disableStat st =? 0)%N && (logLevel st <=? InfoLevel)%N
  end.

(** The entry points whose record carries the caller-location field. *)
Definition carries_caller (e : Entry) : bool :=
  match family e with
  | FAlert | FSevere => false
  | _ => negb (with_stack e)
  end.

(** The values [Field] has no rule for. *)
Definition passes_through (v : value) : bool :=
  match v with
  | VNil | VString _ | VStrings _ => true
  | VOther o =>
      match dyn_Error o, dyn_String o with
      | None, None => true
      | _, _ => false
      end
  | _ => false
  end.

(** [LogConf] [c] in file mode at path [p]. *)
Definition in_file_mode (c : LogConf) (p : string) : LogConf :=
  mkLogConf (ServiceName c) fileMode (Encoding c) (TimeFormat c) p (Level c).

(** The part of the state that the configuration steps of [SetUp] do
    not reach. *)
Definition same_backend (st st' : State) : Prop :=
  writer st' = writer st /\ calls st' = calls st
  /\ disableLog st' = disableLog st /\ setupOnce st' = setupOnce st
  /\ disableStat st' = disableStat st.

(** The state in which [SetUp] selects the output mode. *)
Definition configured (c : LogConf) (st : State) : State :=
  let st := setupLogLevel c st in
  let st := if negb (is_empty (TimeFormat c))
            then set_timeFormat (TimeFormat c) st else st in
  if String.eqb (Encoding c) plainEncoding
  then set_encoding plainEncodingType st
  else set_encoding jsonEncodingType st.

(** The calls of write entry points in a sequence of calls. *)
Definition is_write (o : Op) : bool :=
  match o with
  | OWrite _ _ => true
  | _ => false
  end.

Definition writes_in (ops : list Op) : nat :=
  List.length (filter is_write ops).

(** The writers that the facade installs by itself. *)
Definition own_writer (h : option Writer) : bool :=
  match h with
  | None | Some nopWriter | Some consoleWriter => true
  | _ => false
  end.

End Facade.

(** An environment to evaluate the facade in. *)
Definition sample_Sprint (v : list value) : string :=
  match v with
  | [VString s] => s
  | _ => "?"
  end.

Definition sample_env : Env :=
  {| fmt_Sprint := sample_Sprint;
     fmt_Sprintf := fun format _ => format;
     fmt_Errorf := fun format _ => mkError format;
     Time_String := fun t => fmtInt EmptyString (Z.to_N (unixNano t));
     debug_Stack := fun stk => "goroutine 1 [running]:";
     sysx_Hostname := "host1";
     open_error := fun p => if String.eqb p "/ro/access.log"
                            then Some (mkError "permission denied") else None;
     close_error := fun _ => None;
     logs_go := "core/logx/logs.go";
     getCaller_site := mkLoc "core/logx/util.go" 1;
     backupFileDelimiter := "-";
     stream_files := ["access.log"; "error.log"; "severe.log"; "slow.log";
                      "stat.log"] |}.

Definition main_go (line : N) : Loc := mkLoc "main.go" line.

Definition volume_conf : LogConf :=
  mkLogConf "svc" volumeMode "json" "" "/var/log" "error".

Definition console_conf : LogConf :=
  mkLogConf "" "console" "plain" "" "" "info".

(* ================================================================= *)
(** * Properties *)

(** ** The standard library functions on samples *)

Example Duration_1500ms :
  Duration_String 1500000000 = "1.5s".
Proof. reflexivity. Qed.

Example Duration_samples :
  Duration_String 0 = "0s" /\
  Duration_String 1 = "1ns" /\
  Duration_String 1100 = String "1" (String "." (String "1" (micro ++ "s"))) /\
  Duration_String 2200000 = "2.2ms" /\
  Duration_String 3300000000 = "3.3s" /\
  Duration_String 245000000000 = "4m5s" /\
  Duration_String 245001000000 = "4m5.001s" /\
  Duration_String 18367001000000 = "5h6m7.001s" /\
  Duration_String 480000000001 = "8m0.000000001s" /\
  Duration_String (-1500000000) = "-1.5s" /\
  Duration_String 9223372036854775807 = "2562047h47m16.854775807s" /\
  Duration_String (-9223372036854775808) = "-2562047h47m16.854775808s".
Proof. repeat split; vm_compute; reflexivity. Qed.

Example path_Join_samples :
  path_Join ["/var/log"; "svc"; "host1"] = "/var/log/svc/host1" /\
  path_Join [""; "svc"; "host1"] = "svc/host1" /\
  path_Join ["logs/"; "svc"; "host1"] = "logs/svc/host1" /\
  path_Join ["a"; ".."; ""] = "." /\
  path_Join ["/a/../.."; "b"] = "/b" /\
  path_Join ["../a"; "../../b"] = "../../b" /\
  path_Join [""; ""] = "".
Proof. repeat split; vm_compute; reflexivity. Qed.

(* ================================================================= *)
(** ** General facts about the facade *)

Section Properties.

Context {env : Env}.

Lemma app_one_neq {A : Type} (l : list A) (r : A) : l <> (l ++ [r])%list.
Proof.
  intro H. apply (f_equal (@List.length A)) in H.
  rewrite length_app in H. simpl in H. lia.
Qed.

Lemma app_one_inj {A : Type} (l : list A) (r r' : A) :
  (l ++ [r])%list = (l ++ [r'])%list -> r = r'.
Proof.
  intro H. apply app_inv_head in H. congruence.
Qed.

Lemma invoke_getWriter_calls (st : State) m v fs :
  calls (let '(st', w) := getWriter st in invoke w m v fs st')
  = (calls st ++ [mkCall (current_backend st) m v fs])%list.
Proof.
  unfold current_backend, getWriter. destruct (writer st); reflexivity.
Qed.

Lemma shallLog_le level st :
  shallLog level st = true <-> (logLevel st <= level)%N.
Proof. unfold shallLog. apply N.leb_le. Qed.

Lemma shallLog_gt level st :
  shallLog level st = false <-> (level < logLevel st)%N.
Proof. unfold shallLog. apply N.leb_gt. Qed.

Ltac unfold_write :=
  unfold write, Alert, Debug, Debugf, Debugv, Debugw, Error, Errorf, ErrorStack,
    ErrorStackf, Errorv, Errorw, Info, Infof, Infov, Infow, Severe, Severef,
    Slow, Slowf, Slowv, Sloww, Stat, Statf,
    writeDebug, writeError, writeInfo, writeSevere, writeSlow, writeStack,
    writeStat.

(** The gate decides: a call that does not pass leaves the state as it
    is, a call that passes hands one record to the current backend. *)
Lemma write_blocked (e : Entry) (stk : Stack) (st : State) :
  passes e st = false -> write e stk st = st.
Proof.
  destruct e; unfold passes; simpl; intro Hp; try discriminate;
    unfold_write; unfold shallLogStat, shallLog; rewrite Hp; reflexivity.
Qed.

Lemma write_passed (e : Entry) (stk : Stack) (st : State) :
  passes e st = true -> forwards_one e stk st.
Proof.
  unfold forwards_one.
  destruct e; unfold passes; simpl; intro Hp;
    unfold_write; unfold shallLogStat, shallLog; try rewrite Hp;
    eexists; rewrite invoke_getWriter_calls; split; reflexivity.
Qed.

Lemma forwards_one_iff (e : Entry) (stk : Stack) (st : State) :
  forwards_one e stk st <-> passes e st = true.
Proof.
  split; [ | apply write_passed ].
  destruct (passes e st) eqn:Hp; [ reflexivity | ].
  intros [r [Hr _]]. rewrite (write_blocked _ _ _ Hp) in Hr.
  exfalso. exact (app_one_neq _ _ Hr).
Qed.

Lemma forwards_none_of_blocked (e : Entry) (stk : Stack) (st : State) :
  passes e st = false -> forwards_none e stk st.
Proof.
  intro Hp. unfold forwards_none. rewrite write_blocked by exact Hp.
  reflexivity.
Qed.

(* ================================================================= *)
(** ** The level gate *)

(** C1. A leveled write entry point (Debug, Info, Error and Severe
    classes, with severities ordered Debug < Info < Error < Severe)
    forwards a record to the current backend if and only if the
    threshold is at most the severity of its class; Stat and Statf
    forward if and only if stat logging is enabled and the threshold is
    at most Info; a call below the threshold forwards nothing. *)
Theorem level_gate (e : Entry) (stk : Stack) (st : State) :
  (DebugLevel < InfoLevel < ErrorLevel)%N /\ (ErrorLevel < SevereLevel)%N /\
  (forall sev, severity (family e) = Some sev ->
     (forwards_one e stk st <-> (logLevel st <= sev)%N) /\
     ((sev < logLevel st)%N -> forwards_none e stk st)) /\
  (family e = FStat ->
     (forwards_one e stk st
      <-> disableStat st = 0%N /\ (logLevel st <= InfoLevel)%N) /\
     (~ (disableStat st = 0%N /\ (logLevel st <= InfoLevel)%N) ->
      forwards_none e stk st)).
Proof.
  split; [ unfold DebugLevel, InfoLevel, ErrorLevel; lia | ].
  split; [ unfold SevereLevel, ErrorLevel; lia | ].
  split.
  - intros sev Hsev.
    assert (Hp : passes e st = (logLevel st <=? sev)%N).
    { unfold passes. destruct (family e); simpl in Hsev; congruence. }
    rewrite forwards_one_iff, Hp, N.leb_le. split; [ reflexivity | ].
    intro Hlt. apply forwards_none_of_blocked. rewrite Hp.
    apply N.leb_gt. exact Hlt.
  - intro Hf.
    assert (Hp : passes e st
                 = ((disableStat st =? 0)%N && (logLevel st <=? InfoLevel)%N)).
    { unfold passes. rewrite Hf. reflexivity. }
    rewrite forwards_one_iff, Hp, andb_true_iff, N.eqb_eq, N.leb_le.
    split; [ reflexivity | ].
    intro Hn. apply forwards_none_of_blocked. rewrite Hp.
    apply not_true_is_false. intro Ht. apply Hn.
    apply andb_true_iff in Ht. rewrite N.eqb_eq, N.leb_le in Ht. exact Ht.
Qed.

(** C10. The slow-log entry points are gated at the Error threshold: a
    slow record is forwarded if and only if the threshold is at most
    [ErrorLevel]; threshold severe suppresses it, threshold error emits
    it. *)
Theorem slow_gate (e : Entry) (stk : Stack) (st : State) :
  family e = FSlow ->
  (forwards_one e stk st <-> (logLevel st <= ErrorLevel)%N) /\
  ((ErrorLevel < logLevel st)%N -> forwards_none e stk st) /\
  (logLevel st = SevereLevel -> forwards_none e stk st) /\
  (logLevel st = ErrorLevel -> forwards_one e stk st).
Proof.
  intro Hf.
  assert (Hp : passes e st = (logLevel st <=? ErrorLevel)%N).
  { unfold passes. rewrite Hf. reflexivity. }
  assert (Hblock : (ErrorLevel < logLevel st)%N -> forwards_none e stk st).
  { intro Hlt. apply forwards_none_of_blocked. rewrite Hp.
    apply N.leb_gt. exact Hlt. }
  rewrite forwards_one_iff, Hp, N.leb_le.
  split; [ reflexivity | ]. split; [ exact Hblock | ]. split.
  - intro Hl. apply Hblock. rewrite Hl. reflexivity.
  - intro Hl. rewrite Hl. apply N.le_refl.
Qed.

(** C3, as amended. Every severity entry point other than Alert
    consults the level gate before emitting, each class at its own
    level: a Debug call forwards its record if and only if the threshold
    is at most [DebugLevel], an Info call at most [InfoLevel], an Error,
    ErrorStack or Slow call at most [ErrorLevel], a Severe call at most
    [SevereLevel], a Stat call when stat logs are enabled and the
    threshold is at most [InfoLevel]; Alert does not consult the gate
    and forwards its record to the current backend whatever the
    threshold. *)
Theorem gate_except_Alert (e : Entry) (stk : Stack) (st : State) :
  match family e with
  | FAlert => forwards_one e stk st
  | FDebug => forwards_one e stk st <-> (logLevel st <= DebugLevel)%N
  | FInfo => forwards_one e stk st <-> (logLevel st <= InfoLevel)%N
  | FError | FSlow => forwards_one e stk st <-> (logLevel st <= ErrorLevel)%N
  | FSevere => forwards_one e stk st <-> (logLevel st <= SevereLevel)%N
  | FStat =>
      forwards_one e stk st
      <-> disableStat st = 0%N /\ (logLevel st <= InfoLevel)%N
  end.
Proof.
  pose proof (forwards_one_iff e stk st) as H. unfold passes in H.
  destruct (family e).
  - apply H. reflexivity.
  - rewrite H. apply N.leb_le.
  - rewrite H. apply N.leb_le.
  - rewrite H. apply N.leb_le.
  - rewrite H. apply N.leb_le.
  - rewrite H. apply N.leb_le.
  - rewrite H, andb_true_iff, N.eqb_eq, N.leb_le. reflexivity.
Qed.

(* ================================================================= *)
(** ** What a call leaves alone *)

(** A write either leaves the state as it is or invokes one method of
    the current backend, after [getWriter]. *)
Lemma write_shape (e : Entry) (stk : Stack) (st : State) :
  write e stk st = st \/
  exists m v fs,
    write e stk st = invoke (current_backend st) m v fs (fst (getWriter st)).
Proof.
  destruct (passes e st) eqn:Hp.
  - right. revert Hp.
    destruct e; unfold passes; simpl; intro Hp;
      unfold_write; unfold shallLogStat, shallLog; try rewrite Hp;
      unfold current_backend; destruct (getWriter st); simpl;
      do 3 eexists; reflexivity.
  - left. apply write_blocked. exact Hp.
Qed.

Lemma getWriter_state (st : State) :
  fst (getWriter st) = set_writer (Some (current_backend st)) st
  /\ (writer st = None -> current_backend st = consoleWriter)
  /\ (forall w, writer st = Some w -> current_backend st = w).
Proof.
  unfold current_backend, getWriter. destruct st as [tf ll en dl ds op w so ca ope cl].
  destruct w; simpl; repeat split; try congruence; discriminate.
Qed.

(** Opening files only adds to the list of opened files. *)
Lemma createOutput_frame (path : string) (st : State) :
  exists l, fst (createOutput path st) = set_opened l st.
Proof.
  assert (Hst : st = set_opened (opened st) st) by (destruct st; reflexivity).
  unfold createOutput, NewLogger.
  destruct (is_empty path); [ exists (opened st); exact Hst | ].
  destruct (String.eqb _ _); destruct (open_error path); simpl;
    solve [ exists (opened st); exact Hst | eexists; reflexivity ].
Qed.

Lemma createOutputs_frame (paths : list string) (st : State) :
  exists l, fst (createOutputs paths st) = set_opened l st.
Proof.
  revert st. induction paths as [ | p paths IH ]; intro st; simpl.
  - exists (opened st). destruct st; reflexivity.
  - destruct (createOutput_frame p st) as [l Hl].
    destruct (createOutput p st) as [st1 [out | err]]; simpl in Hl; subst st1.
    + destruct (IH (set_opened l st)) as [l' Hl'].
      destruct (createOutputs paths (set_opened l st)) as [st2 [outs | err]];
        simpl in Hl'; subst st2; exists l'; reflexivity.
    + exists l. reflexivity.
Qed.

Lemma newFileWriter_frame (c : LogConf) (st : State) :
  exists l, fst (newFileWriter c st) = set_opened l st.
Proof.
  unfold newFileWriter. destruct (is_empty (Path c)).
  - exists (opened st). destruct st; reflexivity.
  - destruct (createOutputs_frame
                (map (fun f => path_Join [Path c; f]) stream_files) st) as [l Hl].
    destruct (createOutputs _ st) as [st1 [outs | err]]; simpl in *;
      exists l; exact Hl.
Qed.

(** [setupWithFiles] fails without touching the holder, or installs the
    new file writer through [SetWriter]. *)
Lemma setupWithFiles_shape (c : LogConf) (st : State) :
  exists l,
    (exists err, newFileWriter c st = (set_opened l st, inr err)
                 /\ setupWithFiles c st = (set_opened l st, Some err)) \/
    (exists w, newFileWriter c st = (set_opened l st, inl w)
               /\ setupWithFiles c st
                  = (SetWriter (Some w) (set_opened l st), None)).
Proof.
  destruct (newFileWriter_frame c st) as [l Hl]. exists l.
  unfold setupWithFiles.
  destruct (newFileWriter c st) as [st1 [w | err]]; simpl in Hl; subst st1.
  - right. exists w. split; reflexivity.
  - left. exists err. split; reflexivity.
Qed.

Lemma same_backend_refl (st : State) : same_backend st st.
Proof. repeat split. Qed.

Lemma same_backend_trans (st1 st2 st3 : State) :
  same_backend st1 st2 -> same_backend st2 st3 -> same_backend st1 st3.
Proof.
  unfold same_backend. intros (a1 & a2 & a3 & a4 & a5) (b1 & b2 & b3 & b4 & b5).
  repeat split; congruence.
Qed.

Lemma setupLogLevel_same (c : LogConf) (st : State) :
  same_backend st (setupLogLevel c st).
Proof.
  unfold setupLogLevel, SetLevel.
  repeat (destruct (String.eqb _ _)); repeat split.
Qed.

Lemma configured_same (c : LogConf) (st : State) :
  same_backend st (configured c st).
Proof.
  unfold configured.
  apply same_backend_trans with (setupLogLevel c st);
    [ apply setupLogLevel_same | ].
  destruct (negb _); destruct (String.eqb _ _); repeat split.
Qed.

Lemma setup_body_eq (c : LogConf) (st : State) :
  setup_body c st =
  if String.eqb (Mode c) fileMode then setupWithFiles c (configured c st)
  else if String.eqb (Mode c) volumeMode then setupWithVolume c (configured c st)
  else (setupWithConsole (configured c st), None).
Proof. reflexivity. Qed.

Lemma SetWriter_eq (w : option Writer) (st : State) :
  SetWriter w st = if (disableLog st =? 0)%N then set_writer w st else st.
Proof. reflexivity. Qed.

(** [SetUp]'s initialization reaches the holder only through
    [SetWriter], and not at all when it fails. *)
Lemma setup_body_frame (c : LogConf) (st : State) :
  let st' := fst (setup_body c st) in
  calls st' = calls st /\ disableLog st' = disableLog st
  /\ setupOnce st' = setupOnce st /\ disableStat st' = disableStat st
  /\ (disableLog st <> 0%N -> writer st' = writer st)
  /\ (forall err, snd (setup_body c st) = Some err -> writer st' = writer st).
Proof.
  destruct (configured_same c st) as (Hw & Hc & Hd & Ho & Hs).
  assert (Hfiles : forall c',
    let st' := fst (setupWithFiles c' (configured c st)) in
    calls st' = calls st /\ disableLog st' = disableLog st
    /\ setupOnce st' = setupOnce st /\ disableStat st' = disableStat st
    /\ (disableLog st <> 0%N -> writer st' = writer st)
    /\ (forall err, snd (setupWithFiles c' (configured c st)) = Some err ->
        writer st' = writer st)).
  { intro c'.
    destruct (setupWithFiles_shape c' (configured c st))
      as [l [[err [_ Hf]] | [w [_ Hf]]]]; rewrite Hf; simpl.
    - repeat split; auto.
    - rewrite SetWriter_eq. simpl. rewrite Hd.
      destruct (disableLog st =? 0)%N eqn:Hz; simpl; repeat split; auto;
        try discriminate.
      apply N.eqb_eq in Hz. intro Hn. contradiction. }
  rewrite setup_body_eq.
  destruct (String.eqb (Mode c) fileMode); [ apply Hfiles | ].
  destruct (String.eqb (Mode c) volumeMode).
  - unfold setupWithVolume.
    destruct (is_empty (ServiceName c)); [ simpl; repeat split; auto | ].
    apply Hfiles.
  - unfold setupWithConsole. rewrite SetWriter_eq. simpl. rewrite Hd.
    destruct (disableLog st =? 0)%N eqn:Hz; simpl; repeat split; auto;
      try discriminate.
    apply N.eqb_eq in Hz. intro Hn. contradiction.
Qed.

Lemma SetUp_done (c : LogConf) (st : State) :
  setupOnce (fst (SetUp c st)) = true.
Proof.
  unfold SetUp, Once_Do. destruct (setupOnce st) eqn:Ho; [ exact Ho | ].
  destruct (setup_body_frame c (set_setupOnce true st)) as (_ & _ & H & _).
  rewrite H. reflexivity.
Qed.

Lemma SetUp_skipped (c : LogConf) (st : State) :
  setupOnce st = true -> SetUp c st = (st, None).
Proof. intro Ho. unfold SetUp, Once_Do. rewrite Ho. reflexivity. Qed.

(** No call of the facade re-arms the gate. *)
Lemma step_keeps_done (o : Op) (st : State) :
  setupOnce st = true -> setupOnce (step st o) = true.
Proof.
  intro Ho. destruct o; simpl; try exact Ho.
  - destruct (write_shape e stk st) as [H | (m & v & fs & H)]; rewrite H;
      [ exact Ho | ].
    destruct (getWriter_state st) as [Hg _]. rewrite Hg. exact Ho.
  - apply SetUp_done.
  - unfold SetWriter. destruct (disableLog st =? 0)%N; exact Ho.
  - unfold Close. simpl. destruct (writer st); exact Ho.
Qed.

Lemma run_keeps_done (ops : list Op) (st : State) :
  setupOnce st = true -> setupOnce (run ops st) = true.
Proof.
  revert st. induction ops as [ | o ops IH ]; intros st Ho; simpl.
  - exact Ho.
  - apply IH. apply step_keeps_done. exact Ho.
Qed.

Lemma initializations_done (ops : list Op) (st : State) :
  setupOnce st = true -> initializations ops st = 0%nat.
Proof.
  revert st. induction ops as [ | o ops IH ]; intros st Ho; simpl.
  - reflexivity.
  - rewrite IH by (apply step_keeps_done; exact Ho).
    destruct o; try reflexivity. rewrite Ho. reflexivity.
Qed.

(* ================================================================= *)
(** ** Setup *)

(** C2. [SetUp] runs its initialization at most once: a call made
    before any other performs it; once a call of [SetUp] has been made,
    every later call, whatever happened in between and whatever
    configuration it asks for, returns nil and leaves the whole state as
    it is; in any sequence of calls the initialization runs at most
    once. *)
Theorem SetUp_once (c1 c2 : LogConf) (ops : list Op) (st : State) :
  (if setupOnce st
   then SetUp c1 st = (st, None)
   else SetUp c1 st = setup_body c1 (set_setupOnce true st)) /\
  (let st2 := run ops (fst (SetUp c1 st)) in SetUp c2 st2 = (st2, None)) /\
  (initializations ops st <= 1)%nat.
Proof.
  split; [ | split ].
  - unfold SetUp, Once_Do. destruct (setupOnce st); reflexivity.
  - simpl. apply SetUp_skipped. apply run_keeps_done. apply SetUp_done.
  - revert st. induction ops as [ | o ops IH ]; intro st; simpl.
    + lia.
    + destruct o; try apply IH.
      destruct (setupOnce st) eqn:Ho; [ apply IH | ].
      rewrite initializations_done by apply SetUp_done. lia.
Qed.

Lemma path_Clean_not_empty (p : string) : path_Clean p <> EmptyString.
Proof.
  unfold path_Clean. destruct p as [ | c p ]; [ discriminate | ].
  match goal with
  | |- (if is_empty ?s then _ else _) <> _ => destruct s; simpl; discriminate
  end.
Qed.

Lemma is_empty_true (s : string) : is_empty s = true <-> s = EmptyString.
Proof. destruct s; simpl; split; congruence. Qed.

Lemma volume_path_not_empty (p svc host : string) :
  svc <> EmptyString -> path_Join [p; svc; host] <> EmptyString.
Proof.
  intro Hs. unfold path_Join.
  assert (Hf : forallb is_empty [p; svc; host] = false).
  { simpl. destruct svc; [ congruence | ]. simpl.
    rewrite andb_false_r. reflexivity. }
  rewrite Hf. apply path_Clean_not_empty.
Qed.

(** C5. At the call of [SetUp] that initializes: file mode with an
    empty [Path] fails with [ErrLogPathNotSet], the error [createOutput]
    gives for an empty path; volume mode with an empty
    [ServiceName] fails with [ErrLogServiceNameNotSet]; volume mode with
    a [ServiceName] is file mode at the path joined of [Path],
    [ServiceName] and the host name, which is the directory of the file
    writer it installs; whenever [SetUp] fails the error is its result
    and the holder keeps the writer it had, no record being written. *)
Theorem SetUp_config_errors (c : LogConf) (st : State) :
  setupOnce st = false ->
  createOutput EmptyString st = (st, inr ErrLogPathNotSet) /\
  (Mode c = fileMode -> Path c = EmptyString ->
   snd (SetUp c st) = Some ErrLogPathNotSet) /\
  (Mode c = volumeMode -> ServiceName c = EmptyString ->
   snd (SetUp c st) = Some ErrLogServiceNameNotSet) /\
  (Mode c = volumeMode -> ServiceName c <> EmptyString ->
   let p := path_Join [Path c; ServiceName c; sysx_Hostname] in
   p <> EmptyString /\
   SetUp c st = SetUp (in_file_mode c p) st /\
   (snd (SetUp c st) = None -> disableLog st = 0%N ->
    exists outs, writer (fst (SetUp c st)) = Some (fileWriter p outs))) /\
  (forall err, snd (SetUp c st) = Some err ->
   writer (fst (SetUp c st)) = writer st
   /\ calls (fst (SetUp c st)) = calls st).
Proof.
  intro Ho.
  assert (HS : forall c', SetUp c' st = setup_body c' (set_setupOnce true st)).
  { intro c'. unfold SetUp, Once_Do. rewrite Ho. reflexivity. }
  split; [ reflexivity | ].
  split; [ | split; [ | split ] ].
  - intros Hm Hp. rewrite HS, setup_body_eq, Hm, String.eqb_refl.
    unfold setupWithFiles, newFileWriter. rewrite Hp. reflexivity.
  - intros Hm Hs. rewrite HS, setup_body_eq, Hm. simpl.
    unfold setupWithVolume. rewrite Hs. reflexivity.
  - intros Hm Hs p.
    assert (Hp : p <> EmptyString) by (apply volume_path_not_empty; exact Hs).
    assert (Heq : SetUp c st = SetUp (in_file_mode c p) st).
    { rewrite !HS, !setup_body_eq, Hm. simpl.
      unfold setupWithVolume.
      destruct (is_empty (ServiceName c)) eqn:He;
        [ apply is_empty_true in He; contradiction | ].
      reflexivity. }
    split; [ exact Hp | ]. split; [ exact Heq | ].
    rewrite Heq, HS, setup_body_eq. simpl.
    set (st0 := configured (in_file_mode c p) (set_setupOnce true st)).
    intros Hnil Hd.
    assert (Hd0 : disableLog st0 = 0%N).
    { destruct (configured_same (in_file_mode c p) (set_setupOnce true st))
        as (_ & _ & H & _). unfold st0. rewrite H. exact Hd. }
    revert Hnil. unfold setupWithFiles, newFileWriter. simpl.
    destruct (is_empty p); [ discriminate | ].
    destruct (createOutputs_frame
                (map (fun f => path_Join [p; f]) stream_files) st0) as [l Hl].
    destruct (createOutputs _ st0) as [st1 [outs | err]]; simpl in Hl; subst st1;
      simpl; [ | discriminate ].
    intros _. exists outs. rewrite SetWriter_eq. simpl. rewrite Hd0. reflexivity.
  - intros err He. rewrite HS in *.
    destruct (setup_body_frame c (set_setupOnce true st))
      as (Hc & _ & _ & _ & _ & Hw).
    split; [ exact (Hw err He) | exact Hc ].
Qed.

(* ================================================================= *)
(** ** Fields *)

Lemma range_append_acc {A : Type} (f : A -> string) (l : list A)
  (acc : list string) :
  fold_left (fun out x => out ++ [f x])%list l acc = (acc ++ map f l)%list.
Proof.
  revert acc. induction l as [ | x l IH ]; intro acc; simpl.
  - rewrite app_nil_r. reflexivity.
  - rewrite IH, <- app_assoc. reflexivity.
Qed.

Lemma range_append_map {A : Type} (f : A -> string) (l : list A) :
  range_append f l = map f l.
Proof. unfold range_append. rewrite range_append_acc. reflexivity. Qed.

(** C6. [Field] keeps the key and normalizes the value by the first
    rule that applies: an error becomes its message (also when it is a
    Stringer too); a slice of errors becomes the slice of their
    messages, in order and of the same length; a duration becomes its
    string form, ["1.5s"] for 1500 milliseconds; slices of durations and
    of times become the slices of their string forms; a Stringer that is
    no error becomes the result of [String]; a slice of Stringers is
    rendered element by element; any other value is passed unchanged. *)
Theorem Field_normalizes (key : string) :
  (forall v, Key (Field key v) = key) /\
  (forall o msg, dyn_Error o = Some msg ->
     Value (Field key (VOther o)) = VString msg) /\
  (forall l, Value (Field key (VErrors l)) = VStrings (map err_Error l)
             /\ List.length (map err_Error l) = List.length l) /\
  (forall d, Value (Field key (VDuration d)) = VString (Duration_String d)) /\
  Value (Field key (VDuration (1500 * Z.of_N Millisecond))) = VString "1.5s" /\
  (forall l, Value (Field key (VDurations l))
             = VStrings (map Duration_String l)) /\
  (forall l, Value (Field key (VTimes l)) = VStrings (map Time_String l)) /\
  (forall o s, dyn_Error o = None -> dyn_String o = Some s ->
     Value (Field key (VOther o)) = VString s) /\
  (forall l, Value (Field key (VStringers l)) = VStrings (map str_String l)) /\
  (forall v, passes_through v = true -> Value (Field key v) = v).
Proof.
  repeat apply conj.
  - intro v. unfold Field.
    destruct v; simpl; try reflexivity.
    destruct (dyn_Error o); [ reflexivity | ].
    destruct (dyn_String o); reflexivity.
  - intros o msg He. unfold Field. simpl. rewrite He. reflexivity.
  - intro l. split; [ | apply length_map ].
    unfold Field. simpl. rewrite range_append_map. reflexivity.
  - intro d. reflexivity.
  - reflexivity.
  - intro l. unfold Field. simpl. rewrite range_append_map. reflexivity.
  - intro l. unfold Field. simpl. rewrite range_append_map. reflexivity.
  - intros o s He Hs. unfold Field. simpl. rewrite He, Hs. reflexivity.
  - intro l. unfold Field. simpl. rewrite range_append_map. reflexivity.
  - intros v Hv. unfold Field.
    destruct v; simpl in *; try reflexivity; try discriminate.
    destruct (dyn_Error o); [ discriminate | ].
    destruct (dyn_String o); [ discriminate | reflexivity ].
Qed.

(* ================================================================= *)
(** ** Records *)

(** From [getCaller], called by [addCaller], called by a write function,
    called by an entry point, [callerDepth] frames up is the call of the
    entry point. *)
Lemma getCaller_entry_site (site a b c : Loc) (outer : Stack) :
  getCaller callerDepth (a :: b :: c :: site :: outer) = show_Loc site.
Proof. reflexivity. Qed.

(** The record a call forwards when it passes the gate. *)
Lemma write_record (e : Entry) (site : Loc) (outer : Stack) (st : State) :
  passes e st = true ->
  exists r,
    calls (write e (site :: outer) st) = (calls st ++ [r])%list
    /\ target r = current_backend st
    /\ fields r = (if carries_caller e
                   then (supplied e ++ [caller_field site])%list else [])
    /\ (with_stack e = true ->
        exists msg a b,
          primary e = Some msg
          /\ loc_file a = logs_go /\ loc_file b = logs_go
          /\ val r = VString (msg ++ newline
                              ++ debug_Stack (a :: b :: site :: outer))).
Proof.
  destruct e; unfold passes; simpl; intro Hp;
    unfold_write; unfold shallLogStat, shallLog; try rewrite Hp;
    eexists; rewrite invoke_getWriter_calls;
    (split; [ reflexivity | ]); (split; [ reflexivity | ]);
    (split; [ reflexivity | ]); simpl; intro Hs; try discriminate;
    do 3 eexists; repeat split; reflexivity.
Qed.

(** C8, as amended. A write call of the Debug, Info, Error, Slow and
    Stat classes (ErrorStack and ErrorStackf apart) that passes the gate
    hands exactly one record to the current backend, whose fields are
    the fields the caller supplied, in their order, followed by one
    caller field holding the position of the call of the entry point;
    the record of a Severe, Severef, ErrorStack, ErrorStackf or Alert
    call is one record too, and has no fields. *)
Theorem record_fields (e : Entry) (site : Loc) (outer : Stack) (st : State) :
  passes e st = true ->
  exists r,
    calls (write e (site :: outer) st) = (calls st ++ [r])%list
    /\ target r = current_backend st
    /\ fields r = (if carries_caller e
                   then (supplied e ++ [caller_field site])%list else []).
Proof.
  intro Hp. destruct (write_record e site outer st Hp) as (r & H1 & H2 & H3 & _).
  exists r. repeat split; assumption.
Qed.

(** C9. A Severe, Severef, ErrorStack or ErrorStackf call that passes
    the gate forwards one record whose message is the formatted primary
    message, a newline, and the stack trace captured in the facade (the
    stack of the caller under the two frames of the facade). *)
Theorem stack_appended (e : Entry) (site : Loc) (outer : Stack) (st : State) :
  with_stack e = true ->
  passes e st = true ->
  exists r msg a b,
    calls (write e (site :: outer) st) = (calls st ++ [r])%list
    /\ target r = current_backend st
    /\ primary e = Some msg
    /\ loc_file a = logs_go /\ loc_file b = logs_go
    /\ val r = VString (msg ++ newline
                        ++ debug_Stack (a :: b :: site :: outer)).
Proof.
  intros Hs Hp.
  destruct (write_record e site outer st Hp) as (r & H1 & H2 & _ & H4).
  destruct (H4 Hs) as (msg & a & b & Hm & Ha & Hb & Hv).
  exists r, msg, a, b. repeat split; assumption.
Qed.

(* ================================================================= *)
(** ** Reset, SetWriter and Disable *)

(** C7. [Reset] returns the installed writer and leaves the holder
    empty, the rest of the state, the setup gate included, being as it
    was, so that [SetUp] after a [Reset] is still skipped when it has
    run before; after [Reset], with logging not disabled and the
    threshold at most Info, [SetWriter w] followed by [Info] hands the
    record to [w] and to no other backend. *)
Theorem Reset_detaches (st : State) (w : Writer) (v : list value)
  (site : Loc) (outer : Stack) :
  let st1 := fst (Reset st) in
  snd (Reset st) = writer st /\
  st1 = set_writer None st /\ writer st1 = None /\
  setupOnce st1 = setupOnce st /\
  (setupOnce st = true -> forall c, SetUp c st1 = (st1, None)) /\
  (disableLog st = 0%N -> (logLevel st <= InfoLevel)%N ->
   calls (Info v (site :: outer) (SetWriter (Some w) st1))
   = (calls st ++ [mkCall w MInfo (VString (fmt_Sprint v))
                     [caller_field site]])%list).
Proof.
  simpl. repeat apply conj; try reflexivity.
  - intros Ho c. apply SetUp_skipped. exact Ho.
  - intros Hd Hl. rewrite SetWriter_eq. simpl. rewrite Hd. simpl.
    unfold Info, writeInfo, shallLog. simpl.
    apply N.leb_le in Hl. rewrite Hl. reflexivity.
Qed.

Lemma Disable_installs_nop (st : State) :
  writer (Disable st) = Some nopWriter /\ disableLog (Disable st) = 1%N.
Proof. split; reflexivity. Qed.

Lemma SetWriter_rejected (w : option Writer) (st : State) :
  disableLog st <> 0%N -> SetWriter w st = st.
Proof.
  intro Hd. rewrite SetWriter_eq. apply N.eqb_neq in Hd. rewrite Hd.
  reflexivity.
Qed.

Lemma Disable_idempotent (st : State) : Disable (Disable st) = Disable st.
Proof. reflexivity. Qed.

Lemma output_app (st : State) (c : Call) :
  filter (fun c => emits (target c)) (calls st ++ [c])%list
  = (output st ++ if emits (target c) then [c] else [])%list.
Proof.
  unfold output. rewrite filter_app. simpl.
  destruct (emits (target c)); reflexivity.
Qed.

(** While the no-op writer is in the holder and the flag is set, every
    call other than [Reset] and [Close] keeps both and writes nothing. *)
Lemma disabled_step (o : Op) (st : State) :
  keeps_writer o = true ->
  disableLog st = 1%N -> writer st = Some nopWriter ->
  disableLog (step st o) = 1%N /\ writer (step st o) = Some nopWriter
  /\ output (step st o) = output st.
Proof.
  intros Hk Hd Hw. destruct o; simpl in *; try discriminate.
  - destruct (write_shape e stk st) as [H | (m & v & fs & H)]; rewrite H;
      [ auto | ].
    destruct (getWriter_state st) as (Hg & _ & Hc).
    rewrite Hg, (Hc _ Hw). unfold output, invoke. simpl.
    repeat split; auto.
    rewrite filter_app. simpl. apply app_nil_r.
  - unfold SetUp, Once_Do. destruct (setupOnce st); [ auto | ].
    destruct (setup_body_frame c (set_setupOnce true st))
      as (Hc & Hd' & _ & _ & Hw' & _).
    simpl in *. unfold output. rewrite Hc, Hd', Hw' by (rewrite Hd; discriminate).
    auto.
  - auto.
  - rewrite SetWriter_rejected by (rewrite Hd; discriminate). auto.
  - auto.
  - auto.
Qed.

(** X5. After [Disable], as long as neither [Reset] nor [Close] is
    called, nothing is written, whatever the number of calls: writes,
    [SetUp], [SetWriter], [SetLevel], [Disable] and [DisableStat] leave
    the flag set and the no-op writer in the holder. *)
Lemma Disable_silences (ops : list Op) (st : State) :
  forallb keeps_writer ops = true ->
  disableLog (run ops (Disable st)) = 1%N
  /\ writer (run ops (Disable st)) = Some nopWriter
  /\ output (run ops (Disable st)) = output st.
Proof.
  assert (H : forall ops st0,
    forallb keeps_writer ops = true ->
    disableLog st0 = 1%N -> writer st0 = Some nopWriter ->
    disableLog (run ops st0) = 1%N /\ writer (run ops st0) = Some nopWriter
    /\ output (run ops st0) = output st0).
  { induction ops0 as [ | o ops0 IH ]; intros st0 Hk Hd Hw; simpl.
    - auto.
    - simpl in Hk. apply andb_true_iff in Hk. destruct Hk as [Hk1 Hk2].
      destruct (disabled_step o st0 Hk1 Hd Hw) as (Hd' & Hw' & Ho').
      destruct (IH (step st0 o) Hk2 Hd' Hw') as (Hd2 & Hw2 & Ho2).
      repeat split; congruence. }
  intro Hk. apply (H ops (Disable st) Hk); reflexivity.
Qed.

(** C4. [Disable] is not terminal: after [Disable], a [Reset] (or a
    [Close]) empties the holder, the next write installs the console
    writer in it, the disabled flag still being set, and the record is
    written out. *)
Theorem Disable_undone_by_Reset (v : list value) (site : Loc) (outer : Stack) :
  let written := [mkCall consoleWriter MInfo (VString (fmt_Sprint v))
                    [caller_field site]] in
  let st := run [ODisable; OReset; OWrite (EInfo v) (site :: outer)] initial in
  let st' := run [ODisable; OClose; OWrite (EInfo v) (site :: outer)] initial in
  disableLog st = 1%N /\ writer st = Some consoleWriter /\ output st = written /\
  disableLog st' = 1%N /\ writer st' = Some consoleWriter /\ output st' = written.
Proof. repeat split. Qed.

(* ================================================================= *)
(** ** The holder and the trace *)

Lemma set_writer_same (st : State) : set_writer (writer st) st = st.
Proof. destruct st; reflexivity. Qed.

(** X1. [getWriter] never leaves the holder empty and never replaces a
    writer that is installed: it returns the installed writer without
    touching the state, or installs and returns the console writer; a
    second call changes nothing more. *)
Theorem getWriter_lazy (st : State) :
  writer (fst (getWriter st)) = Some (snd (getWriter st)) /\
  (forall w, writer st = Some w -> getWriter st = (st, w)) /\
  (writer st = None ->
   getWriter st = (set_writer (Some consoleWriter) st, consoleWriter)) /\
  getWriter (fst (getWriter st)) = getWriter st.
Proof.
  unfold getWriter.
  destruct st as [tf ll en dl ds op [ w | ] so ca ope cl]; simpl;
    repeat apply conj; try reflexivity; try discriminate.
  intros w' H. congruence.
Qed.

(** X2. A write entry point changes nothing of the configuration:
    time format, level, encoding, flags, options, setup gate and files
    are as before; a writer that is installed stays, and an empty holder
    stays empty or receives the console writer. *)
Theorem write_keeps_configuration (e : Entry) (stk : Stack) (st : State) :
  let st' := write e stk st in
  timeFormat st' = timeFormat st /\ logLevel st' = logLevel st /\
  encoding st' = encoding st /\ disableLog st' = disableLog st /\
  disableStat st' = disableStat st /\ options st' = options st /\
  setupOnce st' = setupOnce st /\ opened st' = opened st /\
  closed st' = closed st /\
  (forall w, writer st = Some w -> writer st' = Some w) /\
  (writer st = None -> writer st' = None \/ writer st' = Some consoleWriter).
Proof.
  simpl. destruct (write_shape e stk st) as [H | (m & v & fs & H)]; rewrite H.
  - repeat apply conj; auto.
  - destruct (getWriter_state st) as (Hg & Hn & Hs). rewrite Hg. simpl.
    repeat apply conj; try reflexivity.
    + intros w Hw. rewrite (Hs w Hw). reflexivity.
    + intro Hw. right. rewrite (Hn Hw). reflexivity.
Qed.

Lemma step_calls (o : Op) (st : State) :
  exists l, calls (step st o) = (calls st ++ l)%list
            /\ (List.length l <= if is_write o then 1 else 0)%nat.
Proof.
  destruct o; simpl;
    try (exists []; rewrite app_nil_r; split; [ reflexivity | simpl; lia ]).
  - destruct (write_shape e stk st) as [H | (m & v & fs & H)]; rewrite H.
    + exists []. rewrite app_nil_r. split; [ reflexivity | simpl; lia ].
    + destruct (getWriter_state st) as (Hg & _). rewrite Hg.
      eexists. split; [ reflexivity | simpl; lia ].
  - exists []. rewrite app_nil_r. split; [ | simpl; lia ].
    unfold SetUp, Once_Do. destruct (setupOnce st); [ reflexivity | ].
    destruct (setup_body_frame c (set_setupOnce true st)) as (Hc & _).
    exact Hc.
  - exists []. rewrite app_nil_r. split; [ | simpl; lia ].
    unfold SetWriter. destruct (disableLog st =? 0)%N; reflexivity.
  - exists []. rewrite app_nil_r. split; [ | simpl; lia ].
    unfold Close. simpl. destruct (writer st); reflexivity.
Qed.

(** X3. The trace of records only grows: whatever the sequence of
    calls, the records forwarded before it are still there, in their
    order, in front of the new ones, and there are at most as many new
    records as calls of write entry points. *)
Theorem trace_append_only (ops : list Op) (st : State) :
  exists l, calls (run ops st) = (calls st ++ l)%list
            /\ (List.length l <= writes_in ops)%nat.
Proof.
  revert st. induction ops as [ | o ops IH ]; intro st; simpl.
  - exists []. rewrite app_nil_r. split; [ reflexivity | simpl; lia ].
  - destruct (step_calls o st) as (l1 & H1 & L1).
    destruct (IH (step st o)) as (l2 & H2 & L2).
    exists (l1 ++ l2)%list. split.
    + change (run (o :: ops) st) with (run ops (step st o)).
      rewrite H2, H1, app_assoc. reflexivity.
    + rewrite length_app. unfold writes_in in *. simpl.
      destruct (is_write o); simpl; lia.
Qed.

(** X4. A value that [Field] has produced is one it passes through: a
    string, a slice of strings, nil, or a value with neither [Error] nor
    [String]; applying [Field] to it again changes nothing. *)
Theorem Field_idempotent (key key' : string) (v : value) :
  passes_through (Value (Field key v)) = true /\
  Value (Field key' (Value (Field key v))) = Value (Field key v).
Proof.
  assert (H : passes_through (Value (Field key v)) = true).
  { unfold Field. destruct v; simpl; try reflexivity.
    destruct (dyn_Error o) eqn:He; [ reflexivity | ].
    destruct (dyn_String o) eqn:Hs; [ reflexivity | ].
    simpl. rewrite He, Hs. reflexivity. }
  split; [ exact H | ].
  revert H. generalize (Value (Field key v)). intros u Hu.
  unfold Field. destruct u; simpl in *; try reflexivity; try discriminate.
  destruct (dyn_Error o); [ discriminate | ].
  destruct (dyn_String o); [ discriminate | reflexivity ].
Qed.

(* ================================================================= *)
(** ** Flags that stay *)

Lemma disabled_holder_step (o : Op) (st : State) :
  disableLog st = 1%N -> own_writer (writer st) = true ->
  disableLog (step st o) = 1%N /\ own_writer (writer (step st o)) = true.
Proof.
  intros Hd Hw. destruct o; simpl.
  - destruct (write_keeps_configuration e stk st)
      as (_ & _ & _ & Hd' & _ & _ & _ & _ & _ & Hs & Hn).
    split; [ congruence | ].
    destruct (writer st) as [ w | ] eqn:Hws.
    + rewrite (Hs w eq_refl). exact Hw.
    + destruct (Hn eq_refl) as [ H | H ]; rewrite H; reflexivity.
  - unfold SetUp, Once_Do. destruct (setupOnce st); [ auto | ].
    destruct (setup_body_frame c (set_setupOnce true st))
      as (_ & Hd' & _ & _ & Hw' & _).
    simpl in *. rewrite Hd', Hw' by (rewrite Hd; discriminate). auto.
  - auto.
  - rewrite SetWriter_rejected by (rewrite Hd; discriminate). auto.
  - auto.
  - unfold Close. simpl. destruct (writer st); auto.
  - auto.
  - auto.
Qed.

(** X6. Nothing clears the disabled flag: after [Disable], whatever
    calls follow ([Reset] and [Close] included), the flag is set, every
    [SetWriter] is without effect, and the holder is empty or holds the
    no-op writer or the console writer, never a file writer or a writer
    of the caller. *)
Theorem Disable_is_sticky (ops : list Op) (w : option Writer) (st : State) :
  let st' := run ops (Disable st) in
  disableLog st' = 1%N /\ own_writer (writer st') = true
  /\ SetWriter w st' = st'.
Proof.
  assert (H : forall ops st0,
    disableLog st0 = 1%N -> own_writer (writer st0) = true ->
    disableLog (run ops st0) = 1%N /\ own_writer (writer (run ops st0)) = true).
  { induction ops0 as [ | o ops0 IH ]; intros st0 Hd Hw; [ auto | ].
    destruct (disabled_holder_step o st0 Hd Hw) as [Hd' Hw'].
    exact (IH (step st0 o) Hd' Hw'). }
  simpl. destruct (H ops (Disable st) eq_refl eq_refl) as [Hd Hw].
  repeat split; try assumption.
  apply SetWriter_rejected. rewrite Hd. discriminate.
Qed.

Lemma stat_disabled_step (o : Op) (st : State) :
  disableStat st = 1%N -> disableStat (step st o) = 1%N.
Proof.
  intro Hd. destruct o; simpl; try exact Hd.
  - destruct (write_keeps_configuration e stk st) as (_ & _ & _ & _ & H & _).
    congruence.
  - unfold SetUp, Once_Do. destruct (setupOnce st); [ exact Hd | ].
    destruct (setup_body_frame c (set_setupOnce true st))
      as (_ & _ & _ & H & _).
    simpl in H. congruence.
  - unfold SetWriter. destruct (disableLog st =? 0)%N; exact Hd.
  - unfold Close. simpl. destruct (writer st); exact Hd.
  - reflexivity.
Qed.

(** X7. Nothing re-enables stat logs: after [DisableStat], whatever
    calls follow, [Stat] and [Statf] leave the state as it is; the gate
    of every other entry point is as it was before [DisableStat]. *)
Theorem DisableStat_is_sticky (ops : list Op) (e : Entry) (stk : Stack)
  (st : State) :
  (family e = FStat ->
   write e stk (run ops (DisableStat st)) = run ops (DisableStat st)) /\
  (family e <> FStat -> passes e (DisableStat st) = passes e st).
Proof.
  split.
  - intro Hf. apply write_blocked. unfold passes. rewrite Hf.
    assert (H : forall ops st0, disableStat st0 = 1%N ->
                                disableStat (run ops st0) = 1%N).
    { induction ops0 as [ | o ops0 IH ]; intros st0 Hd; [ exact Hd | ].
      exact (IH (step st0 o) (stat_disabled_step o st0 Hd)). }
    rewrite (H ops (DisableStat st) eq_refl). reflexivity.
  - intro Hf. unfold passes. destruct (family e); try reflexivity.
    contradiction Hf. reflexivity.
Qed.

(* ================================================================= *)
(** ** Swapping writers *)

Lemma write_to_installed (e : Entry) (stk : Stack) (st : State) (w : Writer) :
  writer st = Some w ->
  write e stk st = st \/ exists m v fs, write e stk st = invoke w m v fs st.
Proof.
  intro Hw. destruct (write_shape e stk st) as [H | (m & v & fs & H)];
    [ left; exact H | right ].
  destruct (getWriter_state st) as (Hg & _ & Hs).
  rewrite Hg, (Hs w Hw), <- Hw, set_writer_same in H.
  exists m, v, fs. rewrite <- (Hs w Hw) at 1. rewrite (Hs w Hw). exact H.
Qed.

Lemma writes_to_installed (ops : list Op) (st : State) (w : Writer) :
  forallb is_write ops = true -> writer st = Some w ->
  exists l, run ops st = set_calls (calls st ++ l)%list st
            /\ Forall (fun r => target r = w) l.
Proof.
  revert st. induction ops as [ | o ops IH ]; intros st Hall Hw.
  - exists []. split; [ | constructor ].
    rewrite app_nil_r. destruct st; reflexivity.
  - simpl in Hall. apply andb_true_iff in Hall. destruct Hall as [Ho Hall].
    destruct o; try discriminate.
    change (run (OWrite e stk :: ops) st) with (run ops (write e stk st)).
    destruct (write_to_installed e stk st w Hw) as [H | (m & v & fs & H)];
      rewrite H.
    + exact (IH st Hall Hw).
    + destruct (IH (invoke w m v fs st) Hall Hw) as (l & Hl & Hf).
      exists (mkCall w m v fs :: l). split.
      * rewrite Hl. unfold invoke. simpl. rewrite <- app_assoc. reflexivity.
      * constructor; [ reflexivity | exact Hf ].
Qed.

(** X8. Borrowing the logger, as the tests do: with logging not
    disabled, [o := Reset(); SetWriter(w)], any number of writes, then
    [Reset(); SetWriter(o)] hands every record of these writes to [w]
    and leaves the state as it was before, the holder included (also
    when it was empty), but for the trace. *)
Theorem Reset_SetWriter_round_trip (st : State) (w : Writer) (ops : list Op) :
  disableLog st = 0%N ->
  forallb is_write ops = true ->
  let s3 := run ops (SetWriter (Some w) (fst (Reset st))) in
  let s5 := SetWriter (snd (Reset st)) (fst (Reset s3)) in
  (exists l, calls s3 = (calls st ++ l)%list
             /\ Forall (fun r => target r = w) l)
  /\ s5 = set_calls (calls s3) st.
Proof.
  intros Hd Hall. cbv zeta.
  assert (E1 : SetWriter (Some w) (fst (Reset st)) = set_writer (Some w) st).
  { rewrite SetWriter_eq. simpl. rewrite Hd. reflexivity. }
  rewrite E1.
  destruct (writes_to_installed ops (set_writer (Some w) st) w Hall eq_refl)
    as (l & Hl & Hf).
  rewrite Hl. split.
  - exists l. split; [ reflexivity | exact Hf ].
  - destruct st as [tf ll en dl ds op wr so ca ope cl].
    simpl in Hd. subst dl. reflexivity.
Qed.

Lemma write_on_empty (e : Entry) (stk : Stack) (st : State) :
  writer st = None -> passes e st = true ->
  writer (write e stk st) = Some consoleWriter /\
  exists r, calls (write e stk st) = (calls st ++ [r])%list
            /\ target r = consoleWriter.
Proof.
  intros Hw Hp.
  destruct (write_passed e stk st Hp) as (r & Hc & Ht).
  destruct (getWriter_state st) as (Hg & Hn & _).
  rewrite (Hn Hw) in *. split; [ | exists r; split; assumption ].
  destruct (write_shape e stk st) as [H | (m & v & fs & H)].
  - rewrite H in Hc. exfalso. exact (app_one_neq _ _ Hc).
  - rewrite H, Hg. reflexivity.
Qed.

(** X9. [Close] empties the holder and returns the result of closing
    the writer it held; on an empty holder it does nothing and returns
    nil, so a second [Close] is harmless; a write that passes the gate
    after [Close] is no error: it installs the console writer and its
    record goes there. *)
Theorem Close_then_write (st : State) :
  let s1 := fst (Close st) in
  writer s1 = None /\ Close s1 = (s1, None) /\ calls s1 = calls st /\
  (writer st = None -> Close st = (st, None)) /\
  (forall w, writer st = Some w ->
     snd (Close st) = close_error w /\ closed s1 = (closed st ++ [w])%list) /\
  (forall e stk, passes e s1 = true ->
     writer (write e stk s1) = Some consoleWriter /\
     exists r, calls (write e stk s1) = (calls st ++ [r])%list
               /\ target r = consoleWriter).
Proof.
  simpl.
  assert (Hw1 : writer (fst (Close st)) = None).
  { unfold Close. simpl. destruct (writer st); reflexivity. }
  assert (Hc1 : calls (fst (Close st)) = calls st).
  { unfold Close. simpl. destruct (writer st); reflexivity. }
  repeat apply conj.
  - exact Hw1.
  - unfold Close at 1. simpl. rewrite Hw1.
    rewrite <- Hw1 at 1. rewrite set_writer_same. reflexivity.
  - exact Hc1.
  - intro Hw. unfold Close. simpl. rewrite Hw.
    rewrite <- Hw at 1. rewrite set_writer_same. reflexivity.
  - intros w Hw. unfold Close. simpl. rewrite Hw. split; reflexivity.
  - intros e stk Hp. rewrite <- Hc1. apply write_on_empty; assumption.
Qed.

(** X10. [SetWriter(nil)], with logging not disabled, empties the
    holder as [Reset] does; the next write that passes the gate goes to
    the console writer. *)
Theorem SetWriter_nil (st : State) (e : Entry) (stk : Stack) :
  disableLog st = 0%N ->
  SetWriter None st = fst (Reset st) /\
  (passes e st = true ->
   exists r, calls (write e stk (SetWriter None st)) = (calls st ++ [r])%list
             /\ target r = consoleWriter).
Proof.
  intro Hd. rewrite SetWriter_eq, Hd. simpl. split; [ reflexivity | ].
  intro Hp.
  apply (write_on_empty e stk (set_writer None st)); [ reflexivity | exact Hp ].
Qed.

(* ================================================================= *)
(** ** What the first SetUp configures *)

Lemma setup_body_config (c : LogConf) (st : State) :
  let st' := fst (setup_body c st) in
  logLevel st' = logLevel (configured c st)
  /\ encoding st' = encoding (configured c st)
  /\ timeFormat st' = timeFormat (configured c st).
Proof.
  assert (Hfiles : forall c' st0,
    let st' := fst (setupWithFiles c' st0) in
    logLevel st' = logLevel st0 /\ encoding st' = encoding st0
    /\ timeFormat st' = timeFormat st0).
  { intros c' st0.
    destruct (setupWithFiles_shape c' st0)
      as [l [[err [_ Hf]] | [w [_ Hf]]]]; rewrite Hf; simpl.
    - repeat split.
    - rewrite SetWriter_eq. simpl.
      destruct (disableLog st0 =? 0)%N; repeat split. }
  rewrite setup_body_eq.
  destruct (String.eqb (Mode c) fileMode); [ apply Hfiles | ].
  destruct (String.eqb (Mode c) volumeMode).
  - unfold setupWithVolume.
    destruct (is_empty (ServiceName c)); [ simpl; repeat split | ].
    apply Hfiles.
  - unfold setupWithConsole. rewrite SetWriter_eq.
    destruct (disableLog (configured c st) =? 0)%N; simpl; repeat split.
Qed.

(** X11. The call of [SetUp] that initializes sets the threshold, the
    encoding and the time format before it selects the output, so they
    are set whether or not it then fails: a level word sets its level,
    any other word leaves the threshold as it was; the encoding is plain
    for the word plain and JSON for every other word; an empty time
    format keeps the one in place. *)
Theorem SetUp_configures (c : LogConf) (st : State) :
  setupOnce st = false ->
  let st' := fst (SetUp c st) in
  (Level c = levelDebug -> logLevel st' = DebugLevel) /\
  (Level c = levelInfo -> logLevel st' = InfoLevel) /\
  (Level c = levelError -> logLevel st' = ErrorLevel) /\
  (Level c = levelSevere -> logLevel st' = SevereLevel) /\
  (Level c <> levelDebug -> Level c <> levelInfo -> Level c <> levelError ->
   Level c <> levelSevere -> logLevel st' = logLevel st) /\
  encoding st' = (if String.eqb (Encoding c) plainEncoding
                  then plainEncodingType else jsonEncodingType) /\
  timeFormat st' = (if is_empty (TimeFormat c)
                    then timeFormat st else TimeFormat c).
Proof.
  intro Ho. simpl.
  assert (HS : SetUp c st = setup_body c (set_setupOnce true st)).
  { unfold SetUp, Once_Do. rewrite Ho. reflexivity. }
  rewrite HS.
  destruct (setup_body_config c (set_setupOnce true st)) as (Hl & He & Ht).
  simpl in Hl, He, Ht. rewrite Hl, He, Ht. clear Hl He Ht HS.
  assert (Hlev : logLevel (configured c (set_setupOnce true st))
                 = logLevel (setupLogLevel c st)).
  { unfold configured, setupLogLevel, SetLevel.
    destruct (negb _); destruct (String.eqb (Encoding c) _);
      repeat (destruct (String.eqb (Level c) _)); reflexivity. }
  rewrite Hlev. unfold setupLogLevel, SetLevel.
  repeat apply conj.
  - intro H. rewrite H. reflexivity.
  - intro H. rewrite H. reflexivity.
  - intro H. rewrite H. reflexivity.
  - intro H. rewrite H. reflexivity.
  - intros H1 H2 H3 H4.
    apply String.eqb_neq in H1, H2, H3, H4. rewrite H1, H2, H3, H4.
    reflexivity.
  - unfold configured.
    destruct (negb _); destruct (String.eqb (Encoding c) _); reflexivity.
  - unfold configured, setupLogLevel, SetLevel.
    destruct (is_empty (TimeFormat c)); destruct (String.eqb (Encoding c) _);
      repeat (destruct (String.eqb (Level c) _)); reflexivity.
Qed.

Lemma configured_opened (c : LogConf) (st : State) :
  opened (configured c st) = opened st.
Proof.
  unfold configured, setupLogLevel, SetLevel.
  destruct (negb _); destruct (String.eqb (Encoding c) _);
    repeat (destruct (String.eqb (Level c) _)); reflexivity.
Qed.

(** X12. Every mode word other than file and volume, the empty and the
    misspelt ones included, is console mode: the call of [SetUp] that
    initializes returns nil, opens no file, and, unless logging is
    disabled, puts the console writer in the holder in place of whatever
    writer was there. *)
Theorem SetUp_console_mode (c : LogConf) (st : State) :
  setupOnce st = false ->
  Mode c <> fileMode -> Mode c <> volumeMode ->
  snd (SetUp c st) = None /\
  opened (fst (SetUp c st)) = opened st /\
  writer (fst (SetUp c st))
  = (if (disableLog st =? 0)%N then Some consoleWriter else writer st).
Proof.
  intros Ho Hf Hv.
  assert (HS : SetUp c st = setup_body c (set_setupOnce true st)).
  { unfold SetUp, Once_Do. rewrite Ho. reflexivity. }
  apply String.eqb_neq in Hf, Hv.
  rewrite HS, setup_body_eq, Hf, Hv. unfold setupWithConsole.
  rewrite SetWriter_eq.
  destruct (configured_same c (set_setupOnce true st)) as (Hw & _ & Hd & _).
  pose proof (configured_opened c (set_setupOnce true st)) as Hop.
  simpl in Hw, Hd, Hop. rewrite Hd.
  destruct (disableLog st =? 0)%N; simpl; repeat split; assumption.
Qed.

(* ================================================================= *)
(** ** Options, fatal errors, levels *)


(** X14. [Must] does nothing on nil; on an error it prints the message
    with the standard logger, hands it to the current backend as a
    severe record, whatever the threshold and with no stack trace added,
    and exits with status 1.  [MustSetup] exits exactly when [SetUp]
    fails, hence never once a [SetUp] has been made. *)
Theorem Must_exits (c : LogConf) (st : State) :
  Must None st = (st, [], None) /\
  (forall err,
     exists st',
       Must (Some err) st = (st', [err_Error err], Some 1%Z)
       /\ calls st' = (calls st ++ [mkCall (current_backend st) MSevere
                                      (VString (err_Error err)) []])%list) /\
  (snd (MustSetup c st) = None <-> snd (SetUp c st) = None) /\
  (setupOnce st = true -> MustSetup c st = (st, [], None)).
Proof.
  split; [ reflexivity | ]. split; [ | split ].
  - intro err. unfold Must, current_backend.
    destruct (getWriter st) as [st1 w] eqn:Hg.
    eexists. split; [ reflexivity | ].
    unfold invoke. simpl.
    assert (Hc : calls st1 = calls st).
    { unfold getWriter in Hg. destruct (writer st); inversion Hg; reflexivity. }
    rewrite Hc. reflexivity.
  - unfold MustSetup. destruct (SetUp c st) as [st1 [ err | ]]; simpl.
    + destruct (getWriter st1). simpl. split; intro H; discriminate H.
    + split; reflexivity.
  - intro Ho. unfold MustSetup. rewrite (SetUp_skipped c st Ho). reflexivity.
Qed.

(** X15. A threshold above severe silences the facade, alerts apart:
    after [SetLevel] with such a level every entry point other than
    [Alert] leaves the state as it is; after [SetLevel(DebugLevel)] every
    entry point other than [Stat] and [Statf] forwards its record. *)
Theorem SetLevel_extremes (level : N) (e : Entry) (stk : Stack) (st : State) :
  ((SevereLevel < level)%N -> family e <> FAlert ->
   write e stk (SetLevel level st) = SetLevel level st) /\
  (family e <> FStat -> forwards_one e stk (SetLevel DebugLevel st)).
Proof.
  split.
  - intros Hl Hf. apply write_blocked. unfold passes. simpl.
    unfold SevereLevel, ErrorLevel, InfoLevel, DebugLevel in *.
    destruct (family e); try (contradiction Hf; reflexivity);
      try (apply N.leb_gt; lia).
    apply andb_false_iff. right. apply N.leb_gt. lia.
  - intro Hf. apply write_passed. unfold passes. simpl.
    destruct (family e); try reflexivity.
    contradiction Hf. reflexivity.
Qed.

End Properties.

(* ================================================================= *)
(** ** The facade at work

    Closed instances of the statements above, in [sample_env], with
    calls made from [main.go]. *)

(** The scenario of the specification: console mode at level info;
    [Info] is written with its caller field, [Debug] is not written. *)
Example console_scenario :
  let st := run (env := sample_env)
              [OSetUp console_conf;
               OWrite (EInfo [VString "hello"]) [main_go 12];
               OWrite (EDebug [VString "hidden"]) [main_go 13]] initial in
  output st = [mkCall consoleWriter MInfo (VString "hello")
                 [mkLogField "caller" (VString "main.go:12")]]
  /\ encoding st = plainEncodingType /\ logLevel st = InfoLevel.
Proof. repeat split. Qed.

(** A second [SetUp] with another configuration changes nothing, and a
    [SetUp] that failed is not retried. *)
Example second_SetUp_ignored :
  let st1 := fst (SetUp (env := sample_env) console_conf initial) in
  SetUp (env := sample_env) volume_conf st1 = (st1, None)
  /\ opened st1 = [] /\ logLevel st1 = InfoLevel
  /\ writer st1 = Some consoleWriter.
Proof. repeat split. Qed.

Example failed_SetUp_not_retried :
  let bad := mkLogConf "" fileMode "json" "" "" "info" in
  let st1 := fst (SetUp (env := sample_env) bad initial) in
  snd (SetUp (env := sample_env) bad initial) = Some ErrLogPathNotSet
  /\ SetUp (env := sample_env) volume_conf st1 = (st1, None)
  /\ writer st1 = None.
Proof. repeat split. Qed.

Example volume_SetUp :
  exists outs,
    SetUp (env := sample_env) volume_conf initial
    = (fst (SetUp (env := sample_env) volume_conf initial), None)
    /\ writer (fst (SetUp (env := sample_env) volume_conf initial))
       = Some (fileWriter "/var/log/svc/host1" outs)
    /\ map out_path outs
       = ["/var/log/svc/host1/access.log"; "/var/log/svc/host1/error.log";
          "/var/log/svc/host1/severe.log"; "/var/log/svc/host1/slow.log";
          "/var/log/svc/host1/stat.log"].
Proof. eexists. repeat split. Qed.

(** An unwritable directory: the error of the first file is the result
    of [SetUp], and no writer is installed. *)
Example unwritable_SetUp :
  let c := mkLogConf "" fileMode "json" "" "/ro" "info" in
  SetUp (env := sample_env) c initial
  = (set_logLevel InfoLevel (set_setupOnce true initial),
     Some (mkError "permission denied")).
Proof. reflexivity. Qed.

Lemma level_gate_witness :
  forwards_one (env := sample_env) (EError [VString "x"]) [main_go 10]
    (SetLevel ErrorLevel initial)
  /\ forwards_none (env := sample_env) (EInfo [VString "x"]) [main_go 10]
       (SetLevel ErrorLevel initial).
Proof.
  split.
  - destruct (level_gate (env := sample_env) (EError [VString "x"]) [main_go 10]
                (SetLevel ErrorLevel initial)) as (_ & _ & H & _).
    destruct (H ErrorLevel eq_refl) as [Hiff _].
    apply Hiff. simpl. apply N.le_refl.
  - destruct (level_gate (env := sample_env) (EInfo [VString "x"]) [main_go 10]
                (SetLevel ErrorLevel initial)) as (_ & _ & H & _).
    destruct (H InfoLevel eq_refl) as [_ Hnone].
    apply Hnone. reflexivity.
Defined.

Lemma slow_gate_witness :
  family (ESlowf "took %v" [VDuration 1500000000]) = FSlow
  /\ forwards_one (env := sample_env) (ESlowf "took %v" [VDuration 1500000000])
       [main_go 10] (SetLevel ErrorLevel initial).
Proof.
  split; [ reflexivity | ].
  apply (slow_gate (env := sample_env) (ESlowf "took %v" [VDuration 1500000000])
           [main_go 10] (SetLevel ErrorLevel initial) eq_refl).
  reflexivity.
Defined.

Lemma SetUp_config_errors_witness :
  setupOnce initial = false
  /\ snd (SetUp (env := sample_env)
            (mkLogConf "" volumeMode "json" "" "/var/log" "info") initial)
     = Some ErrLogServiceNameNotSet.
Proof.
  split; [ reflexivity | ].
  apply (SetUp_config_errors (env := sample_env)
           (mkLogConf "" volumeMode "json" "" "/var/log" "info") initial
           eq_refl); reflexivity.
Defined.

Lemma Field_normalizes_witness :
  Value (Field (env := sample_env) "err"
           (VOther (mkDyn "timeout" (Some "deadline exceeded") (Some "T"))))
  = VString "deadline exceeded".
Proof.
  destruct (Field_normalizes (env := sample_env) "err") as (_ & H & _).
  apply H. reflexivity.
Defined.

Lemma Reset_detaches_witness :
  disableLog (SetWriter (Some consoleWriter) initial) = 0%N
  /\ (logLevel (SetWriter (Some consoleWriter) initial) <= InfoLevel)%N
  /\ calls (Info (env := sample_env) [VString "x"] [main_go 10]
              (SetWriter (Some (customWriter 1))
                 (fst (Reset (SetWriter (Some consoleWriter) initial)))))
     = [mkCall (customWriter 1) MInfo (VString "x")
          [caller_field (main_go 10)]].
Proof.
  split; [ reflexivity | ]. split; [ vm_compute; discriminate | ].
  apply (Reset_detaches (env := sample_env)
           (SetWriter (Some consoleWriter) initial) (customWriter 1)
           [VString "x"] (main_go 10) []).
  - reflexivity.
  - vm_compute. discriminate.
Defined.

Lemma record_fields_witness :
  passes (EInfow "done" [mkLogField "n" (VString "3")]) initial = true
  /\ exists r,
       calls (write (env := sample_env)
                (EInfow "done" [mkLogField "n" (VString "3")])
                [main_go 10] initial) = [r]
       /\ target r = consoleWriter
       /\ fields r = [mkLogField "n" (VString "3"); caller_field (main_go 10)].
Proof.
  split; [ reflexivity | ].
  apply (record_fields (env := sample_env)
           (EInfow "done" [mkLogField "n" (VString "3")]) (main_go 10) []
           initial eq_refl).
Defined.

Lemma stack_appended_witness :
  with_stack (ESevere [VString "x"]) = true
  /\ passes (ESevere [VString "x"]) initial = true
  /\ exists r msg a b,
       calls (write (env := sample_env) (ESevere [VString "x"]) [main_go 10]
                initial) = [r]
       /\ target r = consoleWriter
       /\ primary (env := sample_env) (ESevere [VString "x"]) = Some msg
       /\ loc_file a = "core/logx/logs.go" /\ loc_file b = "core/logx/logs.go"
       /\ val r = VString (msg ++ newline
                           ++ debug_Stack (Env := sample_env)
                                (a :: b :: [main_go 10])).
Proof.
  split; [ reflexivity | ]. split; [ reflexivity | ].
  apply (stack_appended (env := sample_env) (ESevere [VString "x"])
           (main_go 10) [] initial eq_refl eq_refl).
Defined.

(** C3, as stated, fails: whatever severity among the four levels is
    taken to be Alert's, [Alert] forwards its record at a threshold above
    it. *)
Lemma Alert_gate_counterexample :
  ~ (exists sev,
       In sev [DebugLevel; InfoLevel; ErrorLevel; SevereLevel] /\
       forall v stk st,
         forwards_one (env := sample_env) (EAlert v) stk st ->
         (logLevel st <= sev)%N).
Proof.
  intros [sev [Hin H]].
  assert (Hf : forwards_one (env := sample_env) (EAlert "disk full")
                 [main_go 10] (SetLevel 4 initial)).
  { eexists. split; reflexivity. }
  apply H in Hf. simpl in Hf.
  simpl in Hin. unfold DebugLevel, InfoLevel, ErrorLevel, SevereLevel in Hin.
  destruct Hin as [ <- | [ <- | [ <- | [ <- | [] ] ] ] ]; lia.
Qed.

(** At threshold severe, where error records are held back, the alert
    is forwarded all the same. *)
Example Alert_at_severe :
  let st := SetLevel SevereLevel initial in
  write (env := sample_env) (EError [VString "x"]) [main_go 10] st = st
  /\ calls (write (env := sample_env) (EAlert "disk full") [main_go 11] st)
     = [mkCall consoleWriter MAlert (VString "disk full") []].
Proof. split; reflexivity. Qed.

(** C8, as stated, fails: the record of a [Severe] call that passes the
    gate has no caller field. *)
Lemma caller_field_counterexample :
  ~ (forall e site outer st,
       passes e st = true ->
       exists r,
         calls (write (env := sample_env) e (site :: outer) st)
         = (calls st ++ [r])%list
         /\ fields r = (supplied e ++ [caller_field site])%list).
Proof.
  intro H.
  destruct (H (ESevere [VString "x"]) (main_go 10) [] initial eq_refl)
    as (r & Hc & Hf).
  vm_compute in Hc. injection Hc as Hr. subst r. discriminate Hf.
Qed.

(* ================================================================= *)
(** ** More closed instances *)

Lemma getWriter_lazy_witness :
  writer (SetWriter (Some (customWriter 1)) initial) = Some (customWriter 1)
  /\ getWriter (SetWriter (Some (customWriter 1)) initial)
     = (SetWriter (Some (customWriter 1)) initial, customWriter 1).
Proof.
  split; [ reflexivity | ].
  destruct (getWriter_lazy (SetWriter (Some (customWriter 1)) initial))
    as (_ & H & _).
  apply H. reflexivity.
Defined.

Lemma write_keeps_configuration_witness :
  writer initial = None
  /\ (writer (write (env := sample_env) (EInfo [VString "x"]) [main_go 10]
                initial) = None
      \/ writer (write (env := sample_env) (EInfo [VString "x"]) [main_go 10]
                   initial) = Some consoleWriter).
Proof.
  split; [ reflexivity | ].
  destruct (write_keeps_configuration (env := sample_env)
              (EInfo [VString "x"]) [main_go 10] initial)
    as (_ & _ & _ & _ & _ & _ & _ & _ & _ & _ & H).
  apply H. reflexivity.
Defined.

Lemma Disable_silences_witness :
  forallb keeps_writer
    [OSetWriter (Some (customWriter 1));
     OSetUp console_conf;
     OWrite (EError [VString "x"]) [main_go 10];
     OWrite (EAlert "disk full") [main_go 11]] = true
  /\ output (run (env := sample_env)
               [OSetWriter (Some (customWriter 1));
                OSetUp console_conf;
                OWrite (EError [VString "x"]) [main_go 10];
                OWrite (EAlert "disk full") [main_go 11]]
               (Disable initial)) = [].
Proof.
  split; [ reflexivity | ].
  apply (Disable_silences (env := sample_env)
           [OSetWriter (Some (customWriter 1));
            OSetUp console_conf;
            OWrite (EError [VString "x"]) [main_go 10];
            OWrite (EAlert "disk full") [main_go 11]] initial).
  reflexivity.
Defined.

Lemma DisableStat_is_sticky_witness :
  family (EStat [VString "qps"]) = FStat
  /\ write (env := sample_env) (EStat [VString "qps"]) [main_go 10]
       (run (env := sample_env) [OSetUp console_conf; OReset]
          (DisableStat initial))
     = run (env := sample_env) [OSetUp console_conf; OReset]
         (DisableStat initial).
Proof.
  split; [ reflexivity | ].
  apply (DisableStat_is_sticky (env := sample_env)
           [OSetUp console_conf; OReset] (EStat [VString "qps"]) [main_go 10]
           initial).
  reflexivity.
Defined.

Lemma Reset_SetWriter_round_trip_witness :
  disableLog (SetWriter (Some consoleWriter) initial) = 0%N
  /\ forallb is_write [OWrite (EInfo [VString "x"]) [main_go 10]] = true
  /\ SetWriter (snd (Reset (SetWriter (Some consoleWriter) initial)))
       (fst (Reset
          (run (env := sample_env) [OWrite (EInfo [VString "x"]) [main_go 10]]
             (SetWriter (Some (customWriter 1))
                (fst (Reset (SetWriter (Some consoleWriter) initial)))))))
     = set_calls
         (calls
            (run (env := sample_env)
               [OWrite (EInfo [VString "x"]) [main_go 10]]
               (SetWriter (Some (customWriter 1))
                  (fst (Reset (SetWriter (Some consoleWriter) initial))))))
         (SetWriter (Some consoleWriter) initial).
Proof.
  split; [ reflexivity | ]. split; [ reflexivity | ].
  apply (Reset_SetWriter_round_trip (env := sample_env)
           (SetWriter (Some consoleWriter) initial) (customWriter 1)
           [OWrite (EInfo [VString "x"]) [main_go 10]] eq_refl eq_refl).
Defined.

Lemma Close_then_write_witness :
  passes (EInfo [VString "x"])
    (fst (Close (env := sample_env) (SetWriter (Some (customWriter 1)) initial)))
  = true
  /\ writer (write (env := sample_env) (EInfo [VString "x"]) [main_go 10]
               (fst (Close (env := sample_env)
                       (SetWriter (Some (customWriter 1)) initial))))
     = Some consoleWriter.
Proof.
  split; [ reflexivity | ].
  destruct (Close_then_write (env := sample_env)
              (SetWriter (Some (customWriter 1)) initial))
    as (_ & _ & _ & _ & _ & H).
  apply (H (EInfo [VString "x"]) [main_go 10] eq_refl).
Defined.

Lemma SetWriter_nil_witness :
  disableLog initial = 0%N
  /\ SetWriter None initial = fst (Reset initial).
Proof.
  split; [ reflexivity | ].
  apply (SetWriter_nil (env := sample_env) initial (EInfo [VString "x"])
           [main_go 10] eq_refl).
Defined.

Lemma SetUp_configures_witness :
  setupOnce initial = false
  /\ Level (mkLogConf "" fileMode "plain" "" "" "error") = levelError
  /\ snd (SetUp (env := sample_env)
            (mkLogConf "" fileMode "plain" "" "" "error") initial)
     = Some ErrLogPathNotSet
  /\ logLevel (fst (SetUp (env := sample_env)
                      (mkLogConf "" fileMode "plain" "" "" "error") initial))
     = ErrorLevel.
Proof.
  split; [ reflexivity | ]. split; [ reflexivity | ]. split; [ reflexivity | ].
  apply (SetUp_configures (env := sample_env)
           (mkLogConf "" fileMode "plain" "" "" "error") initial eq_refl).
  reflexivity.
Defined.

Lemma SetUp_console_mode_witness :
  setupOnce (SetWriter (Some (customWriter 1)) initial) = false
  /\ Mode (mkLogConf "" "consol" "" "" "" "") <> fileMode
  /\ Mode (mkLogConf "" "consol" "" "" "" "") <> volumeMode
  /\ writer (fst (SetUp (env := sample_env) (mkLogConf "" "consol" "" "" "" "")
                    (SetWriter (Some (customWriter 1)) initial)))
     = Some consoleWriter.
Proof.
  split; [ reflexivity | ].
  split; [ discriminate | ]. split; [ discriminate | ].
  apply (SetUp_console_mode (env := sample_env)
           (mkLogConf "" "consol" "" "" "" "")
           (SetWriter (Some (customWriter 1)) initial) eq_refl);
    discriminate.
Defined.

Lemma Must_exits_witness :
  setupOnce (fst (SetUp (env := sample_env) console_conf initial)) = true
  /\ MustSetup (env := sample_env) (mkLogConf "" fileMode "" "" "" "")
       (fst (SetUp (env := sample_env) console_conf initial))
     = (fst (SetUp (env := sample_env) console_conf initial), [], None).
Proof.
  split; [ reflexivity | ].
  apply (Must_exits (env := sample_env) (mkLogConf "" fileMode "" "" "" "")
           (fst (SetUp (env := sample_env) console_conf initial))).
  reflexivity.
Defined.

Lemma SetLevel_extremes_witness :
  (SevereLevel < 255)%N
  /\ family (ESevere [VString "x"]) <> FAlert
  /\ write (env := sample_env) (ESevere [VString "x"]) [main_go 10]
       (SetLevel 255 initial) = SetLevel 255 initial.
Proof.
  split; [ reflexivity | ]. split; [ discriminate | ].
  apply (SetLevel_extremes (env := sample_env) 255 (ESevere [VString "x"])
           [main_go 10] initial); [ reflexivity | discriminate ].
Defined.
